(** * Xentauri Pi Screen: the reconnecting WebSocket client

    A shallow embedding of [class XentauriWebSocket] (the WebSocket client
    of the kiosk display) and of [CONFIG.RECONNECT] / [CONFIG.HEARTBEAT_INTERVAL]
    from [js/config.js], together with the properties of its reconnection,
    heartbeat and command-dispatch logic.

    Numbers.  JavaScript numbers are IEEE doubles; the backoff arithmetic is
    modelled over the rationals [Q], exactly.  Every constant of
    [CONFIG.RECONNECT] except [JITTER] is a dyadic rational and the values
    involved stay far below 2^53, so the double computation differs from
    the exact one by rounding noise of the order of 1e-12: bounds proved
    here hold of the doubles up to that noise, and the concrete evaluations
    below keep a margin of at least 1/8 to the nearest rounding boundary.

    Callbacks.  [onCommand] may return or throw.  The other observers
    ([onConnected], [onDisconnected], [onReconnecting], [onError]) are
    taken to return normally and not to call back into the client, as the
    application's own handlers do.

    The page around the client.  The agent-id functions and the [WS_URL]
    getter of [js/config.js], [PairingService] ([js/pairing/service.js])
    and the storage and formatting helpers of [Helpers] are embedded over
    a [Page]: [localStorage] is a finite map from keys to strings whose
    calls may throw, [Date.now()] and [Math.random()] are read from the
    page, [fetch] is answered by an oracle, and [JSON.stringify] /
    [JSON.parse] on texts are oracles of which the properties assume only
    what they state. *)

From Stdlib Require Import QArith Qminmax Qround ZArith Lia Lqa String List Bool.
From stdpp Require Import base option list pretty.
From stdpp Require Import gmap strings.

Local Set Warnings "-register-all".
Local Open Scope Q_scope.

(** ** CONFIG (js/config.js) *)

Module CONFIG.
Module RECONNECT.
Definition BASE_DELAY : Q := 1000.
Definition MAX_DELAY : Q := 30000.
Definition MULTIPLIER : Q := 3 # 2.
Definition JITTER : Q := 1 # 10.
End RECONNECT.
Definition HEARTBEAT_INTERVAL : Z := 30000.
Definition DEBUG : bool := true.
End CONFIG.

(** ** The [Math] built-ins used by the backoff computation *)

(** [Math.pow(b, n)] at a non-negative integer exponent. *)
Fixpoint Math_pow (b : Q) (n : nat) : Q :=
  match n with
  | O => 1
  | S k => b * Math_pow b k
  end.

(** [Math.min]. *)
Definition Math_min (a b : Q) : Q := Qmin a b.

(** [Math.round]: the nearest integer, halves rounded towards +infinity. *)
Definition Math_round (x : Q) : Z := Qfloor (x + (1 # 2)).

Local Close Scope Q_scope.

(** ** Values exchanged with the server and the application *)

(** What [JSON.parse] returns. *)
Inductive json : Type :=
| JNull
| JBool (b : bool)
| JNum (n : Q)
| JStr (s : string)
| JArr (items : list json)
| JObj (props : list (string * json)).

(** A JavaScript value read from such data: [None] is [undefined]. *)
Definition jsval : Type := option json.

(** The object literal passed to [this.onCommand]. *)
Record Command : Type := mkCommand {
  commandId : jsval;
  commandType : jsval;
  parameters : json
}.

Inductive Exn : Type :=
| SyntaxError        (* JSON.parse, new WebSocket *)
| TypeError          (* property read on null *)
| InvalidStateError  (* WebSocket.send while CONNECTING *)
| HandlerError.      (* whatever the application's command handler throws *)

(** How a call of the registered command handler ends. *)
Inductive Outcome : Type := Returns | Throws (e : Exn).

(** The callbacks of the options object, as the application sees them. *)
Inductive Callback : Type :=
| OnConnected
| OnDisconnected (code : Z) (reason : string)
| OnCommand (cmd : Command)
| OnError_config
| OnError_websocket
| OnReconnecting (attempt : nat) (delay : Z).

(** [WebSocket.readyState]. *)
Inductive ReadyState : Type := CONNECTING | OPEN | CLOSING | CLOSED.

Global Instance ReadyState_eq_dec : EqDecision ReadyState.
Proof. solve_decision. Defined.

(** Everything the client does to the outside world, in order. *)
Inductive Effect : Type :=
| ConsoleLog (line : string)
| ConsoleError (line : string)
| Notify (c : Callback)
| NewWebSocket (sock : nat) (url : string)
| WsClose (sock : nat) (code : option Z)
| WsSend (sock : nat) (frame : json)
| SetTimeout (id : positive) (delay : Z)
| ClearTimeout (id : positive)
| SetInterval (id : positive) (period : Z)
| ClearInterval (id : positive).

(** ** The state *)

(** The fields of a [XentauriWebSocket] object.  [ws] refers to a
    [WebSocket] object of the browser by its index; timer fields hold the
    ids returned by [setTimeout] / [setInterval] ([None] is [null]).
    [onCommand] is the behaviour of the handler registered at construction;
    the other callbacks are assumed to return normally and not to call back
    into the client (the application's handlers only update the display). *)
Record XentauriWebSocket : Type := mkClient {
  agentId : option string;
  baseUrl : string;
  ws : option nat;
  connected : bool;
  reconnectAttempts : nat;
  reconnectTimer : option positive;
  heartbeatInterval : option positive;
  onCommand : Command -> Outcome
}.

(** The part of the browser the client touches: the [WebSocket] objects it
    has created (every one of them carries the client's four handlers),
    the pending timers, the timer id allocator, the position on the
    [Math.random] tape and the record of effects. *)
Record Browser : Type := mkBrowser {
  sockets : list ReadyState;
  timeouts : list positive;
  intervals : list positive;
  next_timer : positive;
  random_pos : nat;
  trace : list Effect
}.

(** What the model does not compute: the values [Math.random()] returns,
    which URLs the [WebSocket] constructor accepts, and
    [encodeURIComponent]. *)
Record Oracles : Type := mkOracles {
  Math_random_tape : nat -> Q;
  WebSocket_accepts : string -> bool;
  encodeURIComponent : string -> string
}.

Record World : Type := mkWorld {
  this : XentauriWebSocket;
  browser : Browser;
  env : Oracles
}.

(** Field updates. *)
Definition with_this (f : XentauriWebSocket -> XentauriWebSocket) (w : World) : World :=
  mkWorld (f (this w)) (browser w) (env w).
Definition with_browser (f : Browser -> Browser) (w : World) : World :=
  mkWorld (this w) (f (browser w)) (env w).

Definition set_ws (v : option nat) (c : XentauriWebSocket) : XentauriWebSocket :=
  mkClient (agentId c) (baseUrl c) v (connected c) (reconnectAttempts c)
           (reconnectTimer c) (heartbeatInterval c) (onCommand c).
Definition set_connected (v : bool) (c : XentauriWebSocket) : XentauriWebSocket :=
  mkClient (agentId c) (baseUrl c) (ws c) v (reconnectAttempts c)
           (reconnectTimer c) (heartbeatInterval c) (onCommand c).
Definition set_reconnectAttempts (v : nat) (c : XentauriWebSocket) : XentauriWebSocket :=
  mkClient (agentId c) (baseUrl c) (ws c) (connected c) v
           (reconnectTimer c) (heartbeatInterval c) (onCommand c).
Definition set_reconnectTimer (v : option positive) (c : XentauriWebSocket) : XentauriWebSocket :=
  mkClient (agentId c) (baseUrl c) (ws c) (connected c) (reconnectAttempts c)
           v (heartbeatInterval c) (onCommand c).
Definition set_heartbeatInterval (v : option positive) (c : XentauriWebSocket) : XentauriWebSocket :=
  mkClient (agentId c) (baseUrl c) (ws c) (connected c) (reconnectAttempts c)
           (reconnectTimer c) v (onCommand c).

Definition set_sockets (v : list ReadyState) (b : Browser) : Browser :=
  mkBrowser v (timeouts b) (intervals b) (next_timer b) (random_pos b) (trace b).
Definition set_timeouts (v : list positive) (b : Browser) : Browser :=
  mkBrowser (sockets b) v (intervals b) (next_timer b) (random_pos b) (trace b).
Definition set_intervals (v : list positive) (b : Browser) : Browser :=
  mkBrowser (sockets b) (timeouts b) v (next_timer b) (random_pos b) (trace b).
Definition set_next_timer (v : positive) (b : Browser) : Browser :=
  mkBrowser (sockets b) (timeouts b) (intervals b) v (random_pos b) (trace b).
Definition set_random_pos (v : nat) (b : Browser) : Browser :=
  mkBrowser (sockets b) (timeouts b) (intervals b) (next_timer b) v (trace b).
Definition set_trace (v : list Effect) (b : Browser) : Browser :=
  mkBrowser (sockets b) (timeouts b) (intervals b) (next_timer b) (random_pos b) v.

(** ** A state-and-exception monad for method bodies

    A JavaScript statement changes the state and either completes with a
    value or throws; what it changed before throwing stays changed. *)

Inductive Result (A : Type) : Type :=
| Ok (a : A)
| Throw (e : Exn).
Arguments Ok {A} a.
Arguments Throw {A} e.

Definition M (A : Type) : Type := World -> Result A * World.

Definition ret {A} (a : A) : M A := fun w => (Ok a, w).
Definition throw {A} (e : Exn) : M A := fun w => (Throw e, w).
Definition bind {A B} (c : M A) (k : A -> M B) : M B :=
  fun w => match c w with
           | (Ok a, w') => k a w'
           | (Throw e, w') => (Throw e, w')
           end.
(** [try { c } catch (e) { h e }] *)
Definition try_catch {A} (c : M A) (h : Exn -> M A) : M A :=
  fun w => match c w with
           | (Ok a, w') => (Ok a, w')
           | (Throw e, w') => h e w'
           end.

Notation "x <- c ;; k" := (bind c (fun x => k))
  (at level 100, c at next level, right associativity).
Notation "c ;; k" := (bind c (fun _ => k))
  (at level 100, right associativity).

Definition get {A} (f : World -> A) : M A := fun w => (Ok (f w), w).
Definition modify (f : World -> World) : M unit := fun w => (Ok tt, f w).
Definition assign (f : XentauriWebSocket -> XentauriWebSocket) : M unit :=
  modify (with_this f).
Definition emit (e : Effect) : M unit :=
  modify (with_browser (fun b => set_trace (trace b ++ [e]) b)).

(** The state in which a method call leaves the world, and its completion. *)
Definition exec {A} (c : M A) (w : World) : World := snd (c w).
Definition completion {A} (c : M A) (w : World) : Result A := fst (c w).

(** ** Browser primitives *)

(** [setTimeout] and [setInterval] draw their ids from one counter.  The
    only callback the client passes to [setTimeout] is [() => this.connect()]
    and the only one it passes to [setInterval] is the heartbeat tick, so a
    pending timer is represented by its id. *)
Definition setTimeout (delay : Z) : M positive :=
  id <- get (fun w => next_timer (browser w)) ;;
  modify (with_browser (fun b =>
    set_next_timer (Pos.succ id) (set_timeouts (timeouts b ++ [id]) b))) ;;
  emit (SetTimeout id delay) ;;
  ret id.

Definition clearTimeout (id : positive) : M unit :=
  modify (with_browser (fun b =>
    set_timeouts (filter (fun x => x <> id) (timeouts b)) b)) ;;
  emit (ClearTimeout id).

Definition setInterval (period : Z) : M positive :=
  id <- get (fun w => next_timer (browser w)) ;;
  modify (with_browser (fun b =>
    set_next_timer (Pos.succ id) (set_intervals (intervals b ++ [id]) b))) ;;
  emit (SetInterval id period) ;;
  ret id.

Definition clearInterval (id : positive) : M unit :=
  modify (with_browser (fun b =>
    set_intervals (filter (fun x => x <> id) (intervals b)) b)) ;;
  emit (ClearInterval id).

(** [new WebSocket(url)]: throws [SyntaxError] on a URL it does not accept,
    otherwise creates a socket in state [CONNECTING]. *)
Definition new_WebSocket (url : string) : M nat :=
  ok <- get (fun w => WebSocket_accepts (env w) url) ;;
  if ok : bool then
    sock <- get (fun w => length (sockets (browser w))) ;;
    modify (with_browser (fun b => set_sockets (sockets b ++ [CONNECTING]) b)) ;;
    emit (NewWebSocket sock url) ;;
    ret sock
  else throw SyntaxError.

Definition readyState (sock : nat) : M ReadyState :=
  get (fun w => default CLOSED (sockets (browser w) !! sock)).

(** [socket.close(code)]: starts closing a connecting or open socket, does
    nothing to a closing or closed one.  The [close] event comes later. *)
Definition ws_close (sock : nat) (code : option Z) : M unit :=
  st <- readyState sock ;;
  emit (WsClose sock code) ;;
  match st with
  | CONNECTING | OPEN =>
      modify (with_browser (fun b => set_sockets (<[sock := CLOSING]> (sockets b)) b))
  | CLOSING | CLOSED => ret tt
  end.

(** [socket.send(frame)]: throws while [CONNECTING], transmits while [OPEN],
    discards silently afterwards. *)
Definition ws_send (sock : nat) (frame : json) : M unit :=
  st <- readyState sock ;;
  match st with
  | CONNECTING => throw InvalidStateError
  | OPEN => emit (WsSend sock frame)
  | CLOSING | CLOSED => ret tt
  end.

Definition Math_random : M Q :=
  r <- get (fun w => Math_random_tape (env w) (random_pos (browser w))) ;;
  modify (with_browser (fun b => set_random_pos (S (random_pos b)) b)) ;;
  ret r.

(** ** Reading parsed JSON *)

Definition lookup_prop (k : string) (props : list (string * json)) : jsval :=
  snd <$> List.find (fun p => String.eqb (fst p) k) props.

(** [v.k] for the property names the client reads ([type], [message],
    [command_id], [command_type], [parameters]); none of them exists on a
    primitive or an array, and reading from [null] throws. *)
Definition get_prop (v : json) (k : string) : M jsval :=
  match v with
  | JNull => throw TypeError
  | JObj props => ret (lookup_prop k props)
  | JBool _ | JNum _ | JStr _ | JArr _ => ret None
  end.

(** [v === s] for a string literal [s]. *)
Definition is_string (v : jsval) (s : string) : bool :=
  match v with
  | Some (JStr t) => String.eqb t s
  | _ => false
  end.

(** Truthiness, as [||] tests it. *)
Definition truthy (v : jsval) : bool :=
  match v with
  | None | Some JNull => false
  | Some (JBool b) => b
  | Some (JNum n) => negb (Qeq_bool n 0)
  | Some (JStr s) => negb (String.eqb s "")
  | Some (JArr _) | Some (JObj _) => true
  end.

(** [v || {}] *)
Definition or_empty_object (v : jsval) : json :=
  match v with
  | Some p => if truthy v then p else JObj []
  | None => JObj []
  end.

(** An object literal whose property values may be [undefined], and what
    [JSON.stringify] makes of it: properties that are [undefined] are left
    out.  A frame is recorded as the JSON value it serialises. *)
Definition ObjectLiteral : Type := list (string * jsval).

Definition JSON_stringify (o : ObjectLiteral) : json :=
  JObj (omap (fun p => pair (fst p) <$> snd p) o).

(** The [message] and [close] events.  [JSON.parse] itself is not
    modelled: a message event carries what [JSON.parse(event.data)]
    evaluates to, [None] when it throws. *)
Record MessageEvent : Type := mkMessageEvent { parsed : option json }.
Record CloseEvent : Type := mkCloseEvent { code : Z; reason : string }.

Definition JSON_parse (event : MessageEvent) : M json :=
  match parsed event with
  | Some v => ret v
  | None => throw SyntaxError
  end.

(** ** The methods of [XentauriWebSocket] *)

Module XWS.

(** The constructor.  [options.agentId || CONFIG.AGENT_ID]: [CONFIG] has no
    [AGENT_ID], so a missing or empty id leaves the field [undefined];
    [options.wsUrl || CONFIG.WS_URL] likewise falls back to the production
    URL. *)
Definition CONFIG_WS_URL : string := "wss://xentauri-cloud-core.fly.dev/ws/devices".

Definition constructor (options_agentId options_wsUrl : option string)
    (options_onCommand : Command -> Outcome) : XentauriWebSocket :=
  {| agentId := match options_agentId with
                | Some a => if String.eqb a "" then None else Some a
                | None => None
                end;
     baseUrl := match options_wsUrl with
                | Some u => if String.eqb u "" then CONFIG_WS_URL else u
                | None => CONFIG_WS_URL
                end;
     ws := None;
     connected := false;
     reconnectAttempts := 0;
     reconnectTimer := None;
     heartbeatInterval := None;
     onCommand := options_onCommand |}.

(** [log] and [logError]; the second argument of [console.log] (the data
    object) and values interpolated from parsed JSON are not recorded. *)
Definition log (message : string) : M unit :=
  if CONFIG.DEBUG then emit (ConsoleLog ("[XentauriWS] " +:+ message)) else ret tt.

Definition logError (message : string) : M unit :=
  emit (ConsoleError ("[XentauriWS] " +:+ message)).

(** The four observers other than [onCommand]: the call is recorded and
    returns. *)
Definition notify (c : Callback) : M unit := emit (Notify c).

(** [this.onCommand(cmd)]: recorded, then ends as the registered handler
    does. *)
Definition call_onCommand (cmd : Command) : M unit :=
  emit (Notify (OnCommand cmd)) ;;
  h <- get (fun w => onCommand (this w)) ;;
  match h cmd with
  | Returns => ret tt
  | Throws e => throw e
  end.

Definition buildUrl : M string :=
  base <- get (fun w => baseUrl (this w)) ;;
  agent <- get (fun w => agentId (this w)) ;;
  encode <- get (fun w => encodeURIComponent (env w)) ;;
  ret (base +:+ "?agent_id=" +:+ encode (default "undefined" agent)).

(** [!this.agentId || this.agentId === 'YOUR_AGENT_ID_HERE'] *)
Definition agent_not_configured (agent : option string) : bool :=
  match agent with
  | None => true
  | Some a => String.eqb a "" || String.eqb a "YOUR_AGENT_ID_HERE"
  end.

(** *** Message sending *)

Definition send (message : ObjectLiteral) : M bool :=
  sock <- get (fun w => ws (this w)) ;;
  match sock with
  | None =>
      logError "Cannot send message - not connected" ;;
      ret false
  | Some s =>
      st <- readyState s ;;
      if decide (st <> OPEN) then
        logError "Cannot send message - not connected" ;;
        ret false
      else
        try_catch
          (ws_send s (JSON_stringify message) ;;
           ret true)
          (fun e =>
             logError "Failed to send message" ;;
             ret false)
  end.

Definition sendAck (commandId : jsval) (status : string) : M unit :=
  send [("type", Some (JStr "ack"));
        ("command_id", commandId);
        ("status", Some (JStr status))] ;;
  log "Sent ACK for command".

Definition sendHeartbeat : M unit :=
  send [("type", Some (JStr "heartbeat"))] ;;
  ret tt.

(** *** Reconnection *)

Definition calculateReconnectDelay : M Z :=
  attempts <- get (fun w => reconnectAttempts (this w)) ;;
  let delay := (CONFIG.RECONNECT.BASE_DELAY
                * Math_pow CONFIG.RECONNECT.MULTIPLIER attempts)%Q in
  let delay := Math_min delay CONFIG.RECONNECT.MAX_DELAY in
  let jitterAmount := (delay * CONFIG.RECONNECT.JITTER)%Q in
  rnd <- Math_random ;;
  let delay := (delay + (rnd * jitterAmount * 2 - jitterAmount))%Q in
  ret (Math_round delay).

Definition scheduleReconnect : M unit :=
  assign (fun c => set_reconnectAttempts (S (reconnectAttempts c)) c) ;;
  delay <- calculateReconnectDelay ;;
  attempts <- get (fun w => reconnectAttempts (this w)) ;;
  log ("Scheduling reconnect in " +:+ pretty delay +:+ "ms (attempt "
       +:+ pretty attempts +:+ ")") ;;
  notify (OnReconnecting attempts delay) ;;
  id <- setTimeout delay ;;
  assign (set_reconnectTimer (Some id)).

(** *** Connection management *)

Definition connect : M unit :=
  agent <- get (fun w => agentId (this w)) ;;
  if agent_not_configured agent then
    logError "Agent ID not configured. Please set CONFIG.AGENT_ID" ;;
    notify OnError_config
  else
    timer <- get (fun w => reconnectTimer (this w)) ;;
    match timer with
    | Some id => clearTimeout id ;; assign (set_reconnectTimer None)
    | None => ret tt
    end ;;
    sock <- get (fun w => ws (this w)) ;;
    match sock with
    | Some s => ws_close s None
    | None => ret tt
    end ;;
    url <- buildUrl ;;
    log ("Connecting to " +:+ url +:+ "...") ;;
    try_catch
      (s <- new_WebSocket url ;;
       assign (set_ws (Some s)))
      (fun e =>
         logError "Failed to create WebSocket connection" ;;
         scheduleReconnect).

Definition disconnect : M unit :=
  log "Disconnecting..." ;;
  hb <- get (fun w => heartbeatInterval (this w)) ;;
  match hb with
  | Some id => clearInterval id ;; assign (set_heartbeatInterval None)
  | None => ret tt
  end ;;
  timer <- get (fun w => reconnectTimer (this w)) ;;
  match timer with
  | Some id => clearTimeout id ;; assign (set_reconnectTimer None)
  | None => ret tt
  end ;;
  sock <- get (fun w => ws (this w)) ;;
  match sock with
  | Some s => ws_close s (Some 1000%Z) ;; assign (set_ws None)
  | None => ret tt
  end ;;
  assign (set_connected false).

(** *** Heartbeat *)

Definition startHeartbeat : M unit :=
  hb <- get (fun w => heartbeatInterval (this w)) ;;
  match hb with
  | Some id => clearInterval id
  | None => ret tt
  end ;;
  id <- setInterval CONFIG.HEARTBEAT_INTERVAL ;;
  assign (set_heartbeatInterval (Some id)) ;;
  log "Heartbeat started".

(** The callback given to [setInterval]. *)
Definition heartbeatTick : M unit :=
  c <- get (fun w => connected (this w)) ;;
  if c : bool then sendHeartbeat else ret tt.

(** *** Event handlers *)

Definition handleOpen : M unit :=
  log "Connected successfully" ;;
  assign (set_connected true) ;;
  assign (set_reconnectAttempts 0) ;;
  startHeartbeat ;;
  notify OnConnected.

Definition handleCommand (data : json) : M unit :=
  command_id <- get_prop data "command_id" ;;
  command_type <- get_prop data "command_type" ;;
  parameters <- get_prop data "parameters" ;;
  log "Command received" ;;
  call_onCommand {| commandId := command_id;
                    commandType := command_type;
                    parameters := or_empty_object parameters |} ;;
  sendAck command_id "completed".

Definition handleMessage (event : MessageEvent) : M unit :=
  try_catch
    (data <- JSON_parse event ;;
     type <- get_prop data "type" ;;
     log "Received message" ;;
     if is_string type "connected" then
       _ <- get_prop data "message" ;;
       log "Welcome"
     else if is_string type "command" then
       handleCommand data
     else if is_string type "heartbeat_ack" then
       log "Heartbeat acknowledged"
     else
       log "Unknown message type")
    (fun e => logError "Failed to parse message").

Definition handleClose (event : CloseEvent) : M unit :=
  assign (set_connected false) ;;
  hb <- get (fun w => heartbeatInterval (this w)) ;;
  match hb with
  | Some id => clearInterval id ;; assign (set_heartbeatInterval None)
  | None => ret tt
  end ;;
  let reason :=
    if negb (String.eqb (reason event) "") then reason event
    else if Z.eqb (code event) 1000 then "Normal closure"
    else "Code " +:+ pretty (code event) in
  log ("Disconnected: " +:+ reason) ;;
  notify (OnDisconnected (code event) reason) ;;
  if negb (Z.eqb (code event) 1000) then scheduleReconnect else ret tt.

Definition handleError : M unit :=
  logError "WebSocket error" ;;
  notify OnError_websocket.

Definition forceReconnect : M unit :=
  log "Forcing immediate reconnect" ;;
  assign (set_reconnectAttempts 0) ;;
  timer <- get (fun w => reconnectTimer (this w)) ;;
  match timer with
  | Some id => clearTimeout id ;; assign (set_reconnectTimer None)
  | None => ret tt
  end ;;
  connect.

(** *** Status *)

Definition isConnected : M bool :=
  c <- get (fun w => connected (this w)) ;;
  sock <- get (fun w => ws (this w)) ;;
  match sock with
  | Some s => st <- readyState s ;; ret (c && bool_decide (st = OPEN))
  | None => ret false
  end.

End XWS.

(** ** The event loop

    Between two turns of the event loop the browser does one of: deliver an
    event of one of the client's sockets to the handler attached to it, run
    the callback of a pending timer, or run a call the application makes on
    the client.  [connect] and [disconnect] leave the handlers attached to
    the socket they close, so its [close] event still reaches
    [handleClose]. *)

Inductive Event : Type :=
| open_event (sock : nat)
| message_event (sock : nat) (event : MessageEvent)
| close_event (sock : nat) (event : CloseEvent)
| error_event (sock : nat)
| timeout_fires (id : positive)
| interval_fires (id : positive)
| call_connect
| call_disconnect
| call_forceReconnect
| call_send (message : ObjectLiteral).

Definition socket_state (w : World) (sock : nat) : option ReadyState :=
  sockets (browser w) !! sock.

Definition set_socket_state (sock : nat) (st : ReadyState) (w : World) : World :=
  with_browser (fun b => set_sockets (<[sock := st]> (sockets b)) b) w.

Definition expire_timeout (id : positive) (w : World) : World :=
  with_browser (fun b => set_timeouts (filter (fun x => x <> id) (timeouts b)) b) w.

(** One turn: [None] when the browser cannot produce the event in this
    state (an [open] event needs a connecting socket, a [message] event an
    open or closing one, a [close] event one that is not closed yet, a timer
    must be pending). *)
Definition step (e : Event) (w : World) : option World :=
  match e with
  | open_event s =>
      match socket_state w s with
      | Some CONNECTING => Some (exec XWS.handleOpen (set_socket_state s OPEN w))
      | _ => None
      end
  | message_event s ev =>
      match socket_state w s with
      | Some OPEN | Some CLOSING => Some (exec (XWS.handleMessage ev) w)
      | _ => None
      end
  | close_event s ev =>
      match socket_state w s with
      | Some CONNECTING | Some OPEN | Some CLOSING =>
          Some (exec (XWS.handleClose ev) (set_socket_state s CLOSED w))
      | _ => None
      end
  | error_event s =>
      match socket_state w s with
      | Some CONNECTING | Some OPEN | Some CLOSING => Some (exec XWS.handleError w)
      | _ => None
      end
  | timeout_fires id =>
      if decide (id ∈ timeouts (browser w))
      then Some (exec XWS.connect (expire_timeout id w))
      else None
  | interval_fires id =>
      if decide (id ∈ intervals (browser w))
      then Some (exec XWS.heartbeatTick w)
      else None
  | call_connect => Some (exec XWS.connect w)
  | call_disconnect => Some (exec XWS.disconnect w)
  | call_forceReconnect => Some (exec XWS.forceReconnect w)
  | call_send m => Some (exec (XWS.send m) w)
  end.

Fixpoint run (es : list Event) (w : World) : option World :=
  match es with
  | [] => Some w
  | e :: es' =>
      match step e w with
      | Some w' => run es' w'
      | None => None
      end
  end.

(** The world right after [new XentauriWebSocket(options)] in a page that
    has created no socket and no timer for it yet. *)
Definition boot (options_agentId options_wsUrl : option string)
    (options_onCommand : Command -> Outcome) (o : Oracles) : World :=
  exec (XWS.log "WebSocket client initialized")
       {| this := XWS.constructor options_agentId options_wsUrl options_onCommand;
          browser := {| sockets := []; timeouts := []; intervals := [];
                        next_timer := 1; random_pos := 0; trace := [] |};
          env := o |}.

Inductive reachable : World -> Prop :=
| reachable_boot a u h o : reachable (boot a u h o)
| reachable_step w e w' : reachable w -> step e w = Some w' -> reachable w'.

(** The effects a computation adds to the record. *)
Definition emitted (w w' : World) : list Effect :=
  drop (length (trace (browser w))) (trace (browser w')).

(** Oracles and worlds for concrete evaluation: [Math.random()] always
    returns [r], every URL is accepted when [ok], the handler ends as [h]. *)
Definition oracles (r : Q) (ok : bool) : Oracles :=
  {| Math_random_tape := fun _ => r;
     WebSocket_accepts := fun _ => ok;
     encodeURIComponent := fun s => s |}.

Definition kiosk (r : Q) (h : Command -> Outcome) : World :=
  boot (Some "pi-01") None h (oracles r true).

(** ** Vocabulary of the properties *)

(** The value the next call of [Math.random()] returns. *)
Definition next_random (w : World) : Q :=
  Math_random_tape (env w) (random_pos (browser w)).

(** The URL [connect] hands to the [WebSocket] constructor. *)
Definition connect_url (w : World) : string :=
  baseUrl (this w) +:+ "?agent_id="
  +:+ encodeURIComponent (env w) (default "undefined" (agentId (this w))).

(** The capped exponential delay for an attempt count, before jitter:
    [min(BASE_DELAY * MULTIPLIER^attempt, MAX_DELAY)]. *)
Definition cap (attempt : nat) : Q :=
  Math_min (CONFIG.RECONNECT.BASE_DELAY
            * Math_pow CONFIG.RECONNECT.MULTIPLIER attempt)%Q
           CONFIG.RECONNECT.MAX_DELAY.

(** The value [calculateReconnectDelay] hands to [Math.round], for
    [this.reconnectAttempts = attempts] and [Math.random()] returning
    [rnd]. *)
Definition jitteredDelay (attempts : nat) (rnd : Q) : Q :=
  let delay := (CONFIG.RECONNECT.BASE_DELAY
                * Math_pow CONFIG.RECONNECT.MULTIPLIER attempts)%Q in
  let delay := Math_min delay CONFIG.RECONNECT.MAX_DELAY in
  let jitterAmount := (delay * CONFIG.RECONNECT.JITTER)%Q in
  (delay + (rnd * jitterAmount * 2 - jitterAmount))%Q.

(** The jitter band of the backoff for an attempt count. *)
Definition jitter_band (attempt : nat) (x : Q) : Prop :=
  (cap attempt * (1 - CONFIG.RECONNECT.JITTER) <= x
   /\ x <= cap attempt * (1 + CONFIG.RECONNECT.JITTER))%Q.

(** The part of the world that makes up the connection: the client's
    fields, its sockets and its timers (everything but the record of
    effects and the position on the random tape). *)
Definition connection_state (w : World)
  : XentauriWebSocket * list ReadyState * list positive * list positive * positive :=
  (this w, sockets (browser w), timeouts (browser w), intervals (browser w),
   next_timer (browser w)).

Definition output (w : World) : list Effect := trace (browser w).

Definition is_console (e : Effect) : Prop :=
  match e with
  | ConsoleLog _ | ConsoleError _ => True
  | _ => False
  end.

Definition is_frame (e : Effect) : Prop :=
  match e with
  | WsSend _ _ => True
  | _ => False
  end.

Definition schedules_timeout (e : Effect) : Prop :=
  match e with
  | SetTimeout _ _ => True
  | _ => False
  end.


(** The argument [handleCommand] builds for the handler from a parsed
    message with properties [props]. *)
Definition command_of (props : list (string * json)) : Command :=
  {| commandId := lookup_prop "command_id" props;
     commandType := lookup_prop "command_type" props;
     parameters := or_empty_object (lookup_prop "parameters" props) |}.

(** Whether [handleMessage] takes the ['command'] branch. *)
Definition is_command (event : MessageEvent) : bool :=
  match parsed event with
  | Some (JObj props) => is_string (lookup_prop "type" props) "command"
  | _ => false
  end.

(** A world with one socket, open, on which [handleOpen] has run: what
    [connect()] followed by the socket's [open] event leaves. *)
Definition connected_world (r : Q) (h : Command -> Outcome) : World :=
  exec XWS.handleOpen (set_socket_state 0 OPEN (exec XWS.connect (kiosk r h))).

(** A client whose retry counter stands at [n], with [Math.random()]
    returning [r]. *)
Definition after_attempts (n : nat) (r : Q) : World :=
  with_this (set_reconnectAttempts n) (kiosk r (fun _ => Returns)).





(** The heartbeat timer and the [connected] flag agree, and the client's
    interval timer is the only one running. *)
Definition heartbeat_in_step (w : World) : Prop :=
  intervals (browser w) = option_list (heartbeatInterval (this w))
  /\ (is_Some (heartbeatInterval (this w)) <-> connected (this w) = true).

(** A server that cannot be reached: [connect()], then five times the
    close event of the socket just created, each retry timer firing in
    between. *)
Definition five_failed_attempts : list Event :=
  [call_connect;
   close_event 0 (mkCloseEvent 1006 ""); timeout_fires 1;
   close_event 1 (mkCloseEvent 1006 ""); timeout_fires 2;
   close_event 2 (mkCloseEvent 1006 ""); timeout_fires 3;
   close_event 3 (mkCloseEvent 1006 ""); timeout_fires 4;
   close_event 4 (mkCloseEvent 1006 "")].

(** [c] keeps [I]: whatever holds of the world before [c] holds after it,
    whether [c] completes or throws. *)
Definition keeps (I : World -> Prop) {A} (c : M A) : Prop :=
  forall w, I w -> I (exec c w).

(** [c] completes normally from every world. *)
Definition never_throws {A} (c : M A) : Prop :=
  forall w, exists a, completion c w = Ok a.


(** ** Further vocabulary *)

(** A socket that is connecting or open. *)
Definition is_live (st : ReadyState) : Prop := st = CONNECTING \/ st = OPEN.

(** Every socket the client has created and not closed is the one [this.ws]
    refers to. *)
Definition one_live_socket (w : World) : Prop :=
  forall i st, socket_state w i = Some st -> is_live st -> ws (this w) = Some i.

(** The heartbeat envelope. *)
Definition heartbeat_frame : json := JSON_stringify [("type", Some (JStr "heartbeat"))].

(** Since the record of effects was [t0], no timer has been scheduled. *)
Definition quiet_since (t0 : list Effect) (w : World) : Prop :=
  exists l, output w = t0 ++ l /\ Forall (fun e => ~ schedules_timeout e) l.

(** A client that has nothing: no socket, no timer, not connected. *)
Definition idle (w : World) : Prop :=
  sockets (browser w) = [] /\ timeouts (browser w) = []
  /\ intervals (browser w) = [] /\ ws (this w) = None
  /\ connected (this w) = false /\ reconnectTimer (this w) = None
  /\ heartbeatInterval (this w) = None.

(** No socket of the list is connecting or open. *)
Definition no_live (socks : list ReadyState) : Prop :=
  forall j st, socks !! j = Some st -> ~ is_live st.

(** ** Configuration, local storage and pairing

    [js/config.js] (the URL getters and the agent-id functions),
    [Helpers] (storage and string utilities) and [PairingService]. *)

(** What the page's environment answers to a [fetch]: the request fails,
    or a response arrives with a status and a body that [response.json()]
    parses ([None] when it rejects). *)
Inductive FetchOutcome : Type :=
| NetworkFailure
| Response (status : Z) (body : option json).

(** [response.ok] *)
Definition response_ok (status : Z) : bool :=
  (200 <=? status)%Z && (status <=? 299)%Z.

Inductive PageEffect : Type :=
| PageLog (line : string)
| PageWarn (line : string)
| PageError (line : string)
| Fetch (url : string) (body : json).

(** Built-ins the model does not compute. *)
Record Builtins : Type := mkBuiltins {
  toUpperCase : string -> string;
  trim : string -> string;
  encodeURIComponent_ : string -> string;
  JSON_text : json -> string;                  (* JSON.stringify, as text *)
  JSON_parse_text : string -> option json;     (* JSON.parse; None: throws *)
  StringToNumber : string -> option Q;         (* Number(s); None: NaN *)
  ObjectToNumber : json -> option Q            (* Number(object or array) *)
}.

(** The page: [localStorage] (its entries, whether access to it throws,
    whether writes are refused), the clock, the [Math.random] tape, the
    server behind [fetch] and the record of effects. *)
Record Page : Type := mkPage {
  storage : gmap string string;
  storage_blocked : bool;
  storage_full : bool;
  now : Z;
  random : nat -> Q;
  random_at : nat;
  server : string -> json -> FetchOutcome;
  page_log : list PageEffect;
  builtins : Builtins
}.

Definition set_storage (v : gmap string string) (p : Page) : Page :=
  mkPage v (storage_blocked p) (storage_full p) (now p) (random p) (random_at p)
         (server p) (page_log p) (builtins p).
Definition set_random_at (v : nat) (p : Page) : Page :=
  mkPage (storage p) (storage_blocked p) (storage_full p) (now p) (random p) v
         (server p) (page_log p) (builtins p).
Definition set_now (v : Z) (p : Page) : Page :=
  mkPage (storage p) (storage_blocked p) (storage_full p) v (random p) (random_at p)
         (server p) (page_log p) (builtins p).
Definition record (e : PageEffect) (p : Page) : Page :=
  mkPage (storage p) (storage_blocked p) (storage_full p) (now p) (random p)
         (random_at p) (server p) (page_log p ++ [e]) (builtins p).

(** [localStorage.getItem], [setItem] and [removeItem]; [None] when the
    call throws. *)
Definition getItem (key : string) (p : Page) : option (option string) :=
  if storage_blocked p then None else Some (storage p !! key).

Definition setItem (key value : string) (p : Page) : option Page :=
  if storage_blocked p || storage_full p then None
  else Some (set_storage (<[key := value]> (storage p)) p).

Definition removeItem (key : string) (p : Page) : option Page :=
  if storage_blocked p then None
  else Some (set_storage (delete key (storage p)) p).

Module Config.

Definition BACKEND_URL : string := "https://xentauri-cloud-core.fly.dev".
Definition STORAGE_KEY_AGENT_ID : string := "xentauri_agent_id".
Definition STORAGE_KEY : string := "xentauri_pi_screen".

Fixpoint string_drop (n : nat) (s : string) : string :=
  match n, s with
  | O, _ => s
  | S k, EmptyString => EmptyString
  | S k, String _ rest => string_drop k rest
  end.

(** [s.startsWith(prefix)] *)
Definition startsWith (s prefix : string) : bool := String.prefix prefix s.

(** [s.replace(/^https?:\/\//, '')] *)
Definition strip_http_scheme (s : string) : string :=
  if String.prefix "https://" s then string_drop 8 s
  else if String.prefix "http://" s then string_drop 7 s
  else s.

(** The getter [WS_URL], for a value of [this.BACKEND_URL]. *)
Definition WS_URL (backend_url : string) : string :=
  let wsProtocol := if startsWith backend_url "https" then "wss" else "ws" in
  let host := strip_http_scheme backend_url in
  wsProtocol +:+ "://" +:+ host +:+ "/ws/devices".

(** The getter [PAIR_URL]. *)
Definition PAIR_URL (backend_url : string) : string :=
  backend_url +:+ "/devices/pair".

Definition getAgentId (p : Page) : option string * Page :=
  match getItem STORAGE_KEY_AGENT_ID p with
  | Some v => (v, p)
  | None => (None, record (PageError "[Config] Failed to get agent ID:") p)
  end.

Definition setAgentId (agentId : string) (p : Page) : Page :=
  match setItem STORAGE_KEY_AGENT_ID agentId p with
  | Some p' => record (PageLog "[Config] Agent ID stored:") p'
  | None => record (PageError "[Config] Failed to store agent ID:") p
  end.

Definition clearAgentId (p : Page) : Page :=
  match removeItem STORAGE_KEY_AGENT_ID p with
  | Some p' => record (PageLog "[Config] Agent ID cleared") p'
  | None => record (PageError "[Config] Failed to clear agent ID:") p
  end.

Definition isPaired (p : Page) : bool * Page :=
  let (id, p') := getAgentId p in
  (match id with Some _ => true | None => false end, p').

End Config.

Module Helpers.

(** [String(n).padStart(2, '0')] for an integer [n]. *)
Definition padStart2 (s : string) : string :=
  match String.length s with
  | O => "00"
  | S O => "0" +:+ s
  | _ => s
  end.

(** [formatDuration(seconds)] for an integer number of seconds: [%] is the
    remainder that takes the sign of the dividend ([Z.rem]), [Math.floor] of
    a quotient of integers is [Z.div]. *)
Definition formatDuration (seconds : Z) : string :=
  let h := (seconds / 3600)%Z in
  let m := (Z.rem seconds 3600 / 60)%Z in
  let s := Z.rem seconds 60 in
  padStart2 (pretty h) +:+ ":" +:+ padStart2 (pretty m) +:+ ":" +:+ padStart2 (pretty s).

Fixpoint string_take (n : nat) (s : string) : string :=
  match n, s with
  | O, _ => EmptyString
  | S k, EmptyString => EmptyString
  | S k, String c rest => String c (string_take k rest)
  end.

(** [str.substring(0, end)]: a negative [end] counts as 0, one beyond the
    length as the length. *)
Definition substring_from_0 (str : string) (end_ : Z) : string :=
  string_take (Z.to_nat end_) str.

(** [truncate(str, maxLength)]; [None] is a missing ([null] or
    [undefined]) string. *)
Definition truncate (str : option string) (maxLength : Z) : string :=
  match str with
  | None => ""
  | Some s =>
      if String.eqb s "" || (Z.of_nat (String.length s) <=? maxLength)%Z then s
      else substring_from_0 s (maxLength - 3) +:+ "..."
  end.

(** The number a value stands for in [Date.now() - timestamp]; [None] is
    [NaN]. *)
Definition ToNumber (b : Builtins) (v : jsval) : option Q :=
  match v with
  | None => None
  | Some JNull => Some 0%Q
  | Some (JBool true) => Some 1%Q
  | Some (JBool false) => Some 0%Q
  | Some (JNum n) => Some n
  | Some (JStr s) => StringToNumber b s
  | Some (JArr items) => ObjectToNumber b (JArr items)
  | Some (JObj props) => ObjectToNumber b (JObj props)
  end.

Definition saveToStorage (key : string) (data : jsval) (p : Page) : Page :=
  let text := JSON_text (builtins p)
                (JSON_stringify [("data", data);
                                 ("timestamp", Some (JNum (inject_Z (now p))))]) in
  match setItem key text p with
  | Some p' => p'
  | None => record (PageWarn "[Xentauri Helpers] Failed to save to storage:") p
  end.

(** [loadFromStorage(key, maxAge)]; the result [Some JNull] is [null],
    [None] is [undefined]. *)
Definition loadFromStorage (key : string) (maxAge : Z) (p : Page) : jsval * Page :=
  let failed :=
    (Some JNull, record (PageWarn "[Xentauri Helpers] Failed to load from storage:") p) in
  match getItem key p with
  | None => failed
  | Some None => (Some JNull, p)
  | Some (Some item) =>
      if String.eqb item "" then (Some JNull, p)
      else
        match JSON_parse_text (builtins p) item with
        | None => failed
        | Some JNull => failed
        | Some parsed =>
            let data := match parsed with JObj props => lookup_prop "data" props | _ => None end in
            let timestamp :=
              match parsed with JObj props => lookup_prop "timestamp" props | _ => None end in
            let too_old :=
              match ToNumber (builtins p) timestamp with
              | Some t => negb (Qle_bool (inject_Z (now p) - t) (inject_Z maxAge))
              | None => false
              end in
            if too_old then
              match removeItem key p with
              | Some p' => (Some JNull, p')
              | None => failed
              end
            else (data, p)
        end
  end.

Definition clearStorage (key : string) (p : Page) : Page :=
  match removeItem key p with
  | Some p' => p'
  | None => record (PageWarn "[Xentauri Helpers] Failed to clear storage:") p
  end.

End Helpers.

Module PairingService.

Definition chars : string := "abcdefghijklmnopqrstuvwxyz0123456789".

(** [s.charAt(i)] for an integer [i]: the empty string out of range. *)
Definition charAt (s : string) (i : Z) : string :=
  if (i <? 0)%Z then ""
  else match String.get (Z.to_nat i) s with
       | Some c => String c EmptyString
       | None => ""
       end.

Definition Math_random_ (p : Page) : Q * Page :=
  (random p (random_at p), set_random_at (S (random_at p)) p).

(** The loop of [generateAgentId], with [n] iterations to go. *)
Fixpoint generate_loop (n : nat) (result : string) (p : Page) : string * Page :=
  match n with
  | O => (result, p)
  | S k =>
      let (r, p') := Math_random_ p in
      generate_loop k
        (result +:+ charAt chars (Qfloor (r * inject_Z (Z.of_nat (String.length chars)))))
        p'
  end.

Definition generateAgentId (p : Page) : string * Page :=
  generate_loop 8 "pi-" p.

Definition getOrCreateAgentId (p : Page) : string * Page :=
  let (stored, p1) := Config.getAgentId p in
  match stored with
  | Some a =>
      if String.eqb a "" then
        let (fresh, p2) := generateAgentId p1 in
        (fresh, record (PageLog "[PairingService] Generated new agent ID:") p2)
      else (a, p1)
  | None =>
      let (fresh, p2) := generateAgentId p1 in
      (fresh, record (PageLog "[PairingService] Generated new agent ID:") p2)
  end.

(** The object [pair] resolves to; a field that the literal does not have
    is [None]. *)
Record PairResult : Type := mkPairResult {
  success : bool;
  error : option json;
  statusCode : option Z;
  networkError : option bool;
  device : option json;
  result_agentId : option string
}.

Definition network_error_result : PairResult :=
  mkPairResult false (Some (JStr "Network error. Check your connection."))
               None (Some true) None None.

(** [pair(pairingCode)], run to completion: the [await]s are taken in one
    go, the outcome of the request being what [server] answers. *)
Definition pair (pairingCode : string) (p : Page) : PairResult * Page :=
  let cleanCode := trim (builtins p) (toUpperCase (builtins p) pairingCode) in
  if negb (Nat.eqb (String.length cleanCode) 6) then
    (mkPairResult false (Some (JStr "Pairing code must be 6 characters"))
                  None None None None, p)
  else
    let (agentId, p1) := getOrCreateAgentId p in
    let p2 := record (PageLog "[PairingService] Attempting to pair...") p1 in
    let url := Config.PAIR_URL Config.BACKEND_URL +:+ "?agent_id="
               +:+ encodeURIComponent_ (builtins p2) agentId in
    let body := JSON_stringify [("pairing_code", Some (JStr cleanCode))] in
    let p3 := record (Fetch url body) p2 in
    let failed :=
      (network_error_result, record (PageError "[PairingService] Network error:") p3) in
    match server p3 url body with
    | NetworkFailure => failed
    | Response status None => failed
    | Response status (Some data) =>
        if negb (response_ok status) then
          let p4 := record (PageError "[PairingService] Pairing failed:") p3 in
          match data with
          | JNull => (network_error_result,
                      record (PageError "[PairingService] Network error:") p4)
          | _ =>
              let detail := match data with
                            | JObj props => lookup_prop "detail" props
                            | _ => None
                            end in
              (mkPairResult false
                 (Some (match detail with
                        | Some d => if truthy detail then d else JStr "Pairing failed"
                        | None => JStr "Pairing failed"
                        end))
                 (Some status) None None None, p4)
          end
        else
          let p4 := Config.setAgentId agentId p3 in
          (mkPairResult true None None None (Some data) (Some agentId),
           record (PageLog "[PairingService] Pairing successful!") p4)
    end.

Definition unpair (p : Page) : Page :=
  let p1 := Config.clearAgentId p in
  let p2 := Helpers.clearStorage Config.STORAGE_KEY p1 in
  record (PageLog "[PairingService] Device unpaired") p2.

Definition isPaired (p : Page) : bool * Page := Config.isPaired p.

End PairingService.

(** A page with empty storage that works, a clock at [t], [Math.random()]
    returning [r] and a server answering every request with [answer]. *)
Definition plain_builtins : Builtins :=
  {| toUpperCase := fun s => s; trim := fun s => s;
     encodeURIComponent_ := fun s => s;
     JSON_text := fun _ => "{}"; JSON_parse_text := fun _ => Some (JObj []);
     StringToNumber := fun _ => None; ObjectToNumber := fun _ => None |}.

Definition blank_page (t : Z) (r : Q) (answer : FetchOutcome) : Page :=
  {| storage := ∅; storage_blocked := false; storage_full := false;
     now := t; random := fun _ => r; random_at := 0;
     server := fun _ _ => answer; page_log := []; builtins := plain_builtins |}.

(** Every character of [s] is one of [alphabet]. *)
Definition drawn_from (alphabet s : string) : Prop :=
  forall c, In c (list_ascii_of_string s) -> In c (list_ascii_of_string alphabet).

(** [q] has the storage, the server and the built-ins of [p]. *)
Definition same_site (p q : Page) : Prop :=
  storage q = storage p /\ storage_blocked q = storage_blocked p
  /\ storage_full q = storage_full p /\ server q = server p
  /\ builtins q = builtins p /\ now q = now p.

(** The request [pair] sends for a cleaned code and an agent id. *)
Definition pair_request_url (p : Page) (agentId : string) : string :=
  Config.PAIR_URL Config.BACKEND_URL +:+ "?agent_id="
  +:+ encodeURIComponent_ (builtins p) agentId.

Definition pair_request_body (cleanCode : string) : json :=
  JSON_stringify [("pairing_code", Some (JStr cleanCode))].

(** [pairingCode.toUpperCase().trim()] *)
Definition clean_code (p : Page) (pairingCode : string) : string :=
  trim (builtins p) (toUpperCase (builtins p) pairingCode).

(** What [saveToStorage] serialises: [{data, timestamp}]. *)
Definition storage_wrapper (data : json) (timestamp : Z) : json :=
  JSON_stringify [("data", Some data); ("timestamp", Some (JNum (inject_Z timestamp)))].

(** Built-ins whose [JSON.parse] knows one text only, the serialisation
    ["{...}"] of one value. *)
Definition builtins_for (v : json) : Builtins :=
  {| toUpperCase := fun s => s; trim := fun s => s;
     encodeURIComponent_ := fun s => s;
     JSON_text := fun _ => "{...}"; JSON_parse_text := fun _ => Some v;
     StringToNumber := fun _ => None; ObjectToNumber := fun _ => None |}.

Definition page_for (v : json) (t : Z) : Page :=
  {| storage := ∅; storage_blocked := false; storage_full := false;
     now := t; random := fun _ => 0%Q; random_at := 0;
     server := fun _ _ => NetworkFailure; page_log := []; builtins := builtins_for v |}.

(** The two decimal digits of a number below 100. *)
Definition digit (n : Z) : Ascii.ascii := Ascii.ascii_of_nat (48 + Z.to_nat n).

Definition two_digits (n : Z) : string :=
  String (digit (n / 10)) (String (digit (n mod 10)) EmptyString).

(** A page whose [localStorage] throws on every access. *)
Definition blocked_page : Page :=
  {| storage := ∅; storage_blocked := true; storage_full := false;
     now := 0; random := fun _ => 0%Q; random_at := 0;
     server := fun _ _ => NetworkFailure; page_log := []; builtins := plain_builtins |}.

(** * Properties *)

(** ** Backoff arithmetic *)

Section Backoff.
Local Open Scope Q_scope.

Lemma Math_pow_ge_1 (b : Q) (n : nat) : 1 <= b -> 1 <= Math_pow b n.
Proof.
  intros Hb. induction n as [|n IH]; simpl.
  - apply Qle_refl.
  - nra.
Qed.

Lemma cap_bounds (n : nat) : 1000 <= cap n /\ cap n <= 30000.
Proof.
  unfold cap, Math_min, CONFIG.RECONNECT.BASE_DELAY, CONFIG.RECONNECT.MAX_DELAY,
    CONFIG.RECONNECT.MULTIPLIER.
  assert (H : 1 <= Math_pow (3 # 2) n) by (apply Math_pow_ge_1; lra).
  split.
  - apply Q.min_glb; lra.
  - apply Q.le_min_r.
Qed.

(** The value handed to [Math.round] lies in the half-open jitter band. *)
Lemma jitteredDelay_band (n : nat) (r : Q) :
  0 <= r -> r < 1 ->
  cap n * (1 - CONFIG.RECONNECT.JITTER) <= jitteredDelay n r
  /\ jitteredDelay n r < cap n * (1 + CONFIG.RECONNECT.JITTER).
Proof.
  intros H0 H1. destruct (cap_bounds n) as [Hlo Hhi].
  unfold jitteredDelay. fold (cap n). unfold CONFIG.RECONNECT.JITTER.
  set (c := cap n) in *. split; nra.
Qed.

Lemma Math_round_near (x : Q) :
  x - (1 # 2) < inject_Z (Math_round x) /\ inject_Z (Math_round x) <= x + (1 # 2).
Proof.
  unfold Math_round. split.
  - pose proof (Qlt_floor (x + (1 # 2))) as H.
    rewrite inject_Z_plus in H. change (inject_Z 1) with 1 in H. lra.
  - apply Qfloor_le.
Qed.

Lemma Math_round_mono (x y : Q) : x <= y -> (Math_round x <= Math_round y)%Z.
Proof.
  intros H. unfold Math_round. apply Qfloor_resp_le. lra.
Qed.

End Backoff.

(** ** Symbolic execution of method bodies *)

Ltac unfold_monad :=
  cbv [exec completion output connection_state emitted next_random connect_url
       bind ret throw get modify assign emit try_catch
       with_this with_browser
       set_ws set_connected set_reconnectAttempts set_reconnectTimer
       set_heartbeatInterval set_sockets set_timeouts set_intervals
       set_next_timer set_random_pos set_trace
       set_socket_state expire_timeout socket_state
       XWS.log XWS.logError XWS.notify
       setTimeout clearTimeout setInterval clearInterval new_WebSocket
       readyState ws_close ws_send Math_random get_prop JSON_parse CONFIG.DEBUG
       from_option id negb
       this browser env agentId baseUrl ws connected reconnectAttempts
       reconnectTimer heartbeatInterval onCommand
       sockets timeouts intervals next_timer random_pos trace
       parsed code reason fst snd].

Ltac unfold_monad_in H :=
  cbv [exec completion output connection_state emitted next_random connect_url
       with_this with_browser set_socket_state expire_timeout socket_state
       from_option id
       this browser env agentId baseUrl ws connected reconnectAttempts
       reconnectTimer heartbeatInterval onCommand
       sockets timeouts intervals next_timer random_pos trace
       parsed code reason fst snd] in H.

Ltac destruct_world w :=
  let a := fresh "agent" in let b := fresh "base" in let s := fresh "sock" in
  let c := fresh "conn" in let n := fresh "attempts" in
  let rt := fresh "retry" in let hb := fresh "beat" in let h := fresh "handler" in
  let so := fresh "socks" in let tos := fresh "touts" in let iv := fresh "ivals" in
  let nt := fresh "next" in let rp := fresh "pos" in let tr := fresh "out" in
  let o := fresh "orc" in
  destruct w as [[a b s c n rt hb h] [so tos iv nt rp tr] o].

(** Brings the record of effects to the form [old ++ [e1; ...; en]]. *)
Ltac norm_output :=
  rewrite <- ?app_assoc; rewrite ?drop_app_length; cbn [app].

(** Goals about the effects in an explicit list. *)
Ltac exists_effect :=
  repeat first [ apply Exists_cons_hd; exact I | apply Exists_cons_tl ].

Ltac no_such_effect :=
  let H := fresh in
  intros H;
  repeat (apply Exists_cons in H as [H|H]; [exact H|]);
  apply Exists_nil in H; exact H.

Ltac split_all := repeat match goal with |- _ /\ _ => split end.

Lemma is_string_true (v : jsval) (s : string) :
  is_string v s = true -> v = Some (JStr s).
Proof.
  destruct v as [[]|]; simpl; try discriminate.
  intros H. apply String.eqb_eq in H. congruence.
Qed.

(** ** Message sending *)

(** C10.  While the socket is absent or not open, [send] returns [false]
    to its caller: it does not throw, it transmits nothing, it keeps
    nothing for later (the only change to the world is the error line on
    the console). *)
Theorem send_while_disconnected_returns_false (w : World) (message : ObjectLiteral) :
  (ws (this w) = None
   \/ exists s, ws (this w) = Some s /\ socket_state w s <> Some OPEN) ->
  completion (XWS.send message) w = Ok false
  /\ connection_state (exec (XWS.send message) w) = connection_state w
  /\ output (exec (XWS.send message) w)
     = output w ++ [ConsoleError "[XentauriWS] Cannot send message - not connected"].
Proof.
  intros H. destruct_world w. unfold_monad_in H.
  unfold XWS.send. unfold_monad.
  destruct sock as [s|]; [|repeat split].
  destruct H as [H|(s' & Hs & Hst)]; [discriminate|].
  injection Hs as <-.
  destruct (socks !! s) as [[]|] eqn:E; cbn; try (repeat split; fail).
  congruence.
Qed.

Lemma send_while_disconnected_returns_false_witness :
  completion (XWS.send [("type", Some (JStr "heartbeat"))])
             (exec XWS.connect (kiosk 0 (fun _ => Returns))) = Ok false.
Proof.
  apply (send_while_disconnected_returns_false
           (exec XWS.connect (kiosk 0 (fun _ => Returns)))
           [("type", Some (JStr "heartbeat"))]).
  right. exists 0%nat. split; [reflexivity|]. vm_compute. discriminate.
Defined.

(** ** Reconnect delay *)

Lemma calculateReconnectDelay_value (w : World) :
  completion XWS.calculateReconnectDelay w
  = Ok (Math_round (jitteredDelay (reconnectAttempts (this w)) (next_random w))).
Proof. reflexivity. Qed.

(** C1, as stated, fails: with five attempts counted and [Math.random()]
    returning 0 the method returns 6834, below the lower end 6834.375 of
    the jitter band, because the result is rounded to an integer.  Five
    connection attempts that fail one after the other lead there. *)
Lemma calculateReconnectDelay_leaves_band :
  (0 <= next_random (after_attempts 5 0))%Q
  /\ (next_random (after_attempts 5 0) < 1)%Q
  /\ completion XWS.calculateReconnectDelay (after_attempts 5 0) = Ok 6834%Z
  /\ ~ jitter_band 5 (inject_Z 6834)
  /\ (exists w,
       run five_failed_attempts (kiosk 0 (fun _ => Returns)) = Some w
       /\ reconnectAttempts (this w) = 5%nat
       /\ last (output w) = Some (SetTimeout 5 6834)).
Proof.
  split; [vm_compute; discriminate|].
  split; [reflexivity|].
  split; [vm_compute; reflexivity|].
  split; [intros [Hlo _]; vm_compute in Hlo; apply Hlo; reflexivity|].
  eexists. split; [vm_compute; reflexivity|]. split; reflexivity.
Qed.

(** C1, amended.  For every attempt count and every value in [0, 1) of the
    random source, [calculateReconnectDelay] returns the integer nearest to
    a value of the jitter band of [cap(attempt)]: it lies within half a
    millisecond of the band, and it is at least 900, so never negative. *)
Theorem calculateReconnectDelay_rounds_band (w : World) :
  (0 <= next_random w)%Q -> (next_random w < 1)%Q ->
  exists (x : Q) (d : Z),
    completion XWS.calculateReconnectDelay w = Ok d
    /\ d = Math_round x
    /\ jitter_band (reconnectAttempts (this w)) x
    /\ (cap (reconnectAttempts (this w)) * (1 - CONFIG.RECONNECT.JITTER) - (1 # 2)
        < inject_Z d)%Q
    /\ (inject_Z d
        <= cap (reconnectAttempts (this w)) * (1 + CONFIG.RECONNECT.JITTER) + (1 # 2))%Q
    /\ (900 <= d)%Z.
Proof.
  intros H0 H1.
  set (n := reconnectAttempts (this w)). set (r := next_random w) in *.
  exists (jitteredDelay n r), (Math_round (jitteredDelay n r)).
  destruct (jitteredDelay_band n r H0 H1) as [Hlo Hhi].
  destruct (Math_round_near (jitteredDelay n r)) as [Hn1 Hn2].
  destruct (cap_bounds n) as [Hc1 Hc2].
  split; [apply calculateReconnectDelay_value|].
  split; [reflexivity|].
  split; [split; [exact Hlo | apply Qlt_le_weak; exact Hhi]|].
  split; [lra|]. split; [lra|].
  change 900%Z with (Math_round 900). apply Math_round_mono.
  unfold CONFIG.RECONNECT.JITTER in Hlo. lra.
Qed.

Lemma calculateReconnectDelay_rounds_band_witness :
  exists (x : Q) (d : Z),
    completion XWS.calculateReconnectDelay (after_attempts 5 (1 # 2)) = Ok d
    /\ d = Math_round x
    /\ jitter_band 5 x
    /\ (cap 5 * (1 - CONFIG.RECONNECT.JITTER) - (1 # 2) < inject_Z d)%Q
    /\ (inject_Z d <= cap 5 * (1 + CONFIG.RECONNECT.JITTER) + (1 # 2))%Q
    /\ (900 <= d)%Z.
Proof.
  apply (calculateReconnectDelay_rounds_band (after_attempts 5 (1 # 2))).
  - vm_compute. discriminate.
  - reflexivity.
Defined.

(** ** Invariants of method bodies, compositionally *)

Section Keeps.
Context (I : World -> Prop).

Lemma keeps_ret {A} (a : A) : keeps I (ret a).
Proof. intros w H. exact H. Qed.

Lemma keeps_throw {A} (e : Exn) : keeps I (@throw A e).
Proof. intros w H. exact H. Qed.

Lemma keeps_get {A} (f : World -> A) : keeps I (get f).
Proof. intros w H. exact H. Qed.

Lemma keeps_modify (f : World -> World) :
  (forall w, I w -> I (f w)) -> keeps I (modify f).
Proof. intros Hf w H. apply Hf, H. Qed.

Lemma keeps_bind {A B} (c : M A) (k : A -> M B) :
  keeps I c -> (forall a, keeps I (k a)) -> keeps I (bind c k).
Proof.
  intros Hc Hk w H. specialize (Hc w H).
  unfold exec, bind in *. destruct (c w) as [[a|e] w']; simpl in *.
  - apply (Hk a w' Hc).
  - exact Hc.
Qed.

Lemma keeps_try_catch {A} (c : M A) (h : Exn -> M A) :
  keeps I c -> (forall e, keeps I (h e)) -> keeps I (try_catch c h).
Proof.
  intros Hc Hh w H. specialize (Hc w H).
  unfold exec, try_catch in *. destruct (c w) as [[a|e] w']; simpl in *.
  - exact Hc.
  - apply (Hh e w' Hc).
Qed.
End Keeps.

Lemma never_throws_ret {A} (a : A) : never_throws (ret a).
Proof. intros w. exists a. reflexivity. Qed.

Lemma never_throws_modify (f : World -> World) : never_throws (modify f).
Proof. intros w. exists tt. reflexivity. Qed.

Lemma never_throws_get {A} (f : World -> A) : never_throws (get f).
Proof. intros w. exists (f w). reflexivity. Qed.

Lemma never_throws_bind {A B} (c : M A) (k : A -> M B) :
  never_throws c -> (forall a, never_throws (k a)) -> never_throws (bind c k).
Proof.
  intros Hc Hk w. destruct (Hc w) as [a Ha].
  unfold completion, bind in *. destruct (c w) as [[a'|e] w']; simpl in *.
  - apply Hk.
  - discriminate.
Qed.

(** A [try] whose [catch] block cannot throw completes normally. *)
Lemma never_throws_try_catch {A} (c : M A) (h : Exn -> M A) :
  (forall e, never_throws (h e)) -> never_throws (try_catch c h).
Proof.
  intros Hh w. unfold completion, try_catch.
  destruct (c w) as [[a|e] w']; simpl.
  - exists a. reflexivity.
  - apply Hh.
Qed.

Create HintDb xws discriminated.
#[local] Hint Unfold XWS.log XWS.logError XWS.notify XWS.call_onCommand
  XWS.buildUrl XWS.send XWS.sendAck XWS.sendHeartbeat
  XWS.calculateReconnectDelay XWS.scheduleReconnect XWS.connect
  XWS.disconnect XWS.startHeartbeat XWS.heartbeatTick XWS.handleOpen
  XWS.handleCommand XWS.handleMessage XWS.handleClose XWS.handleError
  XWS.forceReconnect setTimeout clearTimeout setInterval clearInterval
  new_WebSocket readyState ws_close ws_send Math_random get_prop JSON_parse
  assign emit : xws.

(** Walks a method body; [leaf] has to show that a single state update (or
    a primitive taken as a whole) respects the invariant. *)
Ltac keeps_by leaf :=
  repeat first
    [ solve [leaf]
    | apply keeps_ret | apply keeps_throw | apply keeps_get
    | apply keeps_bind; [|intros ?]
    | apply keeps_try_catch; [|intros ?]
    | match goal with
      | |- keeps _ (modify _) => apply keeps_modify; solve [leaf]
      end
    | match goal with
      | |- keeps _ (match ?x with _ => _ end) => destruct x
      end
    | progress autounfold with xws ].

(** For invariants that do not mention what the update touches. *)
Ltac untouched :=
  idtac;
  match goal with
  | |- forall w, _ -> _ => let w := fresh in let H := fresh in intros w H; exact H
  end.

Lemma handleMessage_never_throws (event : MessageEvent) :
  never_throws (XWS.handleMessage event).
Proof.
  apply never_throws_try_catch. intros e.
  unfold XWS.logError, emit. apply never_throws_modify.
Qed.

Lemma handleMessage_keeps_connection (event : MessageEvent) v :
  keeps (fun w => connection_state w = v) (XWS.handleMessage event).
Proof. keeps_by untouched. Qed.

(** ** Dispatch of inbound messages *)

(** C9, as stated, fails for a message that lacks required fields: a
    ['command'] message without [command_id], [command_type] and
    [parameters] is not dropped; the handler is called with undefined
    fields and an acknowledgment without id is sent. *)
Lemma command_without_fields_is_dispatched :
  let w := connected_world 0 (fun _ => Returns) in
  let event := mkMessageEvent (Some (JObj [("type", JStr "command")])) in
  lookup_prop "command_id" [("type", JStr "command")] = None
  /\ emitted w (exec (XWS.handleMessage event) w)
     = [ConsoleLog "[XentauriWS] Received message";
        ConsoleLog "[XentauriWS] Command received";
        Notify (OnCommand (mkCommand None None (JObj [])));
        WsSend 0 (JObj [("type", JStr "ack"); ("status", JStr "completed")]);
        ConsoleLog "[XentauriWS] Sent ACK for command"]
  /\ ~ Forall is_console (emitted w (exec (XWS.handleMessage event) w)).
Proof.
  split; [reflexivity|].
  split; [vm_compute; reflexivity|].
  intros H.
  assert (E : Notify (OnCommand (mkCommand None None (JObj [])))
              ∈ emitted (connected_world 0 (fun _ => Returns))
                  (exec (XWS.handleMessage
                           (mkMessageEvent (Some (JObj [("type", JStr "command")]))))
                        (connected_world 0 (fun _ => Returns)))).
  { vm_compute. do 2 right. left. }
  rewrite Forall_forall in H. exact (H _ E).
Qed.

(** C9, amended.  [handleMessage] never throws and never changes the
    connection state, whatever the payload; a payload that cannot be
    decoded, or that is not of type ['command'], produces console output
    only. *)
Theorem handleMessage_never_crashes (w : World) (event : MessageEvent) :
  completion (XWS.handleMessage event) w = Ok tt
  /\ connection_state (exec (XWS.handleMessage event) w) = connection_state w
  /\ (is_command event = false ->
      Forall is_console (emitted w (exec (XWS.handleMessage event) w))).
Proof.
  split; [|split].
  - destruct (handleMessage_never_throws event w) as [[] H]. exact H.
  - apply (handleMessage_keeps_connection event (connection_state w) w). reflexivity.
  - intros Hc. destruct_world w. destruct event as [[v|]].
    + unfold XWS.handleMessage.
      destruct v; unfold is_command in Hc; unfold_monad_in Hc; unfold_monad;
        cbn [is_string]; norm_output; try (repeat constructor; fail).
      rewrite Hc.
      destruct (is_string (lookup_prop "type" props) "connected");
        [norm_output; repeat constructor|].
      destruct (is_string (lookup_prop "type" props) "heartbeat_ack");
        norm_output; repeat constructor.
    + unfold XWS.handleMessage. unfold_monad. norm_output. repeat constructor.
Qed.

Lemma no_frame_among (l : list Effect) :
  Forall (fun e => ~ is_frame e) l -> ~ Exists is_frame l.
Proof.
  intros H Hex. apply Exists_exists in Hex as (e & Hin & He).
  rewrite Forall_forall in H. exact (H e Hin He).
Qed.

(** C2, as stated, fails: when the handler throws, the exception is caught
    but the acknowledgment is skipped; no frame at all is sent. *)
Lemma throwing_handler_gets_no_ack :
  let w := connected_world 0 (fun _ => Throws HandlerError) in
  let props := [("type", JStr "command"); ("command_id", JStr "c1");
                ("command_type", JStr "clear_content"); ("parameters", JObj [])] in
  let event := mkMessageEvent (Some (JObj props)) in
  onCommand (this w) (command_of props) = Throws HandlerError
  /\ completion (XWS.handleMessage event) w = Ok tt
  /\ ~ Exists is_frame (emitted w (exec (XWS.handleMessage event) w)).
Proof.
  split; [reflexivity|]. split; [reflexivity|].
  apply no_frame_among. vm_compute.
  repeat constructor; intros [].
Qed.


(** C2, amended.  When the registered command handler throws, the exception
    is caught by the [try]/[catch] of [handleMessage]: the handler call
    completes normally for the transport, the connection state is unchanged,
    the failure is logged, and no acknowledgment is sent for that command. *)
Theorem throwing_handler_is_caught_without_ack
    (w : World) (props : list (string * json)) (e : Exn) :
  is_string (lookup_prop "type" props) "command" = true ->
  onCommand (this w) (command_of props) = Throws e ->
  completion (XWS.handleMessage (mkMessageEvent (Some (JObj props)))) w = Ok tt
  /\ connection_state (exec (XWS.handleMessage (mkMessageEvent (Some (JObj props)))) w)
     = connection_state w
  /\ emitted w (exec (XWS.handleMessage (mkMessageEvent (Some (JObj props)))) w)
     = [ConsoleLog "[XentauriWS] Received message";
        ConsoleLog "[XentauriWS] Command received";
        Notify (OnCommand (command_of props));
        ConsoleError "[XentauriWS] Failed to parse message"].
Proof.
  intros Hty Hthrow. split; [|split].
  - destruct (handleMessage_never_throws (mkMessageEvent (Some (JObj props))) w)
      as [[] H]. exact H.
  - apply (handleMessage_keeps_connection _ (connection_state w) w). reflexivity.
  - apply is_string_true in Hty. destruct_world w. unfold command_of in *.
    unfold_monad_in Hthrow.
    unfold XWS.handleMessage, XWS.handleCommand, XWS.call_onCommand.
    unfold_monad. rewrite Hty.
    change (is_string (Some (JStr "command")) "connected") with false.
    change (is_string (Some (JStr "command")) "command") with true.
    unfold_monad. rewrite Hthrow. unfold_monad.
    norm_output. reflexivity.
Qed.

Lemma throwing_handler_is_caught_without_ack_witness :
  completion
    (XWS.handleMessage
       (mkMessageEvent (Some (JObj [("type", JStr "command"); ("command_id", JStr "c1")]))))
    (connected_world 0 (fun _ => Throws HandlerError)) = Ok tt.
Proof.
  apply (throwing_handler_is_caught_without_ack
           (connected_world 0 (fun _ => Throws HandlerError))
           [("type", JStr "command"); ("command_id", JStr "c1")]
           HandlerError); reflexivity.
Defined.

(** ** Close events and retry scheduling *)

(** What [scheduleReconnect] does, in full: it counts the attempt, draws the
    delay, notifies [onReconnecting] and stores a new timer.  It does not
    look at the timer [this.reconnectTimer] already holds. *)
Lemma scheduleReconnect_effect (w : World) :
  let n := S (reconnectAttempts (this w)) in
  let d := Math_round (jitteredDelay n (next_random w)) in
  let id := next_timer (browser w) in
  completion XWS.scheduleReconnect w = Ok tt
  /\ reconnectAttempts (this (exec XWS.scheduleReconnect w)) = n
  /\ reconnectTimer (this (exec XWS.scheduleReconnect w)) = Some id
  /\ timeouts (browser (exec XWS.scheduleReconnect w)) = timeouts (browser w) ++ [id]
  /\ emitted w (exec XWS.scheduleReconnect w)
     = [ConsoleLog ("[XentauriWS] " +:+ "Scheduling reconnect in " +:+ pretty d
                    +:+ "ms (attempt " +:+ pretty n +:+ ")");
        Notify (OnReconnecting n d);
        SetTimeout id d].
Proof.
  destruct_world w. unfold XWS.scheduleReconnect, XWS.calculateReconnectDelay.
  unfold_monad. norm_output. repeat split.
Qed.

(** C7.  A close event makes [handleClose] schedule a retry exactly when its
    code is not 1000: then one timer is added and stored in
    [reconnectTimer]; for code 1000 the timers are left as they are.
    [disconnect()] closes the socket with code 1000, schedules nothing and
    leaves no retry timer, and the clean close event that follows schedules
    nothing either. *)
Theorem handleClose_schedules_iff_abnormal (w : World) (event : CloseEvent) :
  (Exists schedules_timeout (emitted w (exec (XWS.handleClose event) w))
   <-> code event <> 1000%Z)
  /\ (code event <> 1000%Z ->
      timeouts (browser (exec (XWS.handleClose event) w))
      = timeouts (browser w) ++ [next_timer (browser w)]
      /\ reconnectTimer (this (exec (XWS.handleClose event) w))
         = Some (next_timer (browser w)))
  /\ (code event = 1000%Z ->
      timeouts (browser (exec (XWS.handleClose event) w)) = timeouts (browser w)
      /\ reconnectTimer (this (exec (XWS.handleClose event) w))
         = reconnectTimer (this w))
  /\ ~ Exists schedules_timeout (emitted w (exec XWS.disconnect w))
  /\ reconnectTimer (this (exec XWS.disconnect w)) = None
  /\ (forall s, ws (this w) = Some s ->
      WsClose s (Some 1000%Z) ∈ emitted w (exec XWS.disconnect w))
  /\ (forall why,
      ~ Exists schedules_timeout
          (emitted (exec XWS.disconnect w)
             (exec (XWS.handleClose (mkCloseEvent 1000 why)) (exec XWS.disconnect w)))).
Proof.
  assert (Hclose : forall w0 ev,
    (Exists schedules_timeout (emitted w0 (exec (XWS.handleClose ev) w0))
     <-> code ev <> 1000%Z)
    /\ (code ev <> 1000%Z ->
        timeouts (browser (exec (XWS.handleClose ev) w0))
        = timeouts (browser w0) ++ [next_timer (browser w0)]
        /\ reconnectTimer (this (exec (XWS.handleClose ev) w0))
           = Some (next_timer (browser w0)))
    /\ (code ev = 1000%Z ->
        timeouts (browser (exec (XWS.handleClose ev) w0)) = timeouts (browser w0)
        /\ reconnectTimer (this (exec (XWS.handleClose ev) w0))
           = reconnectTimer (this w0))).
  { intros w0 [c why]. destruct_world w0.
    unfold XWS.handleClose, XWS.scheduleReconnect, XWS.calculateReconnectDelay.
    cbn [code reason].
    destruct (Z.eqb_spec c 1000) as [->|Hne];
      destruct beat as [hb|]; unfold_monad; norm_output.
    1, 2: split; [split; [intros H; exfalso; revert H; no_such_effect
                         | intros H; congruence]
                 | split; [intros H; congruence | intros _; split; reflexivity]].
    1, 2: split; [split; [intros _; exact Hne | intros _; exists_effect]
                 | split; [intros _; split; reflexivity | intros H; congruence]]. }
  destruct (Hclose w event) as (H1 & H2 & H3).
  split; [exact H1|]. split; [exact H2|]. split; [exact H3|].
  split; [|split; [|split]].
  - destruct_world w. unfold XWS.disconnect.
    destruct beat, retry, sock as [s|]; unfold_monad;
      try (destruct (socks !! s) as [[]|]); unfold_monad; norm_output;
      no_such_effect.
  - destruct_world w. unfold XWS.disconnect.
    destruct beat, retry, sock as [s|]; unfold_monad;
      try (destruct (socks !! s) as [[]|]); reflexivity.
  - intros s Hs. destruct_world w. unfold_monad_in Hs. subst sock.
    unfold XWS.disconnect.
    destruct beat, retry; unfold_monad;
      destruct (socks !! s) as [[]|]; unfold_monad; norm_output;
      repeat first [ apply list_elem_of_here | apply list_elem_of_further ].
  - intros why H.
    destruct (Hclose (exec XWS.disconnect w) (mkCloseEvent 1000 why)) as (H4 & _).
    apply H4 in H. apply H. reflexivity.
Qed.

Lemma first_retry_delay_band (r : Q) :
  (0 <= r)%Q -> (r < 1)%Q ->
  (1350 <= Math_round (jitteredDelay 1 r) <= 1650)%Z.
Proof.
  intros H0 H1. destruct (jitteredDelay_band 1 r H0 H1) as [Hlo Hhi].
  assert (Hcap : (cap 1 == 1500)%Q) by (vm_compute; reflexivity).
  rewrite Hcap in Hlo, Hhi. unfold CONFIG.RECONNECT.JITTER in Hlo, Hhi.
  split.
  - change 1350%Z with (Math_round 1350). apply Math_round_mono. lra.
  - change 1650%Z with (Math_round 1650). apply Math_round_mono. lra.
Qed.

(** C5: what the code does.  When a session that has opened (so the retry
    counter is 0) reports an abnormal close, [onReconnecting] is called with
    attempt 1 and a delay between 1350 and 1650 ms, that is 1500 ms within
    jitter: the counter is incremented before the delay is computed, so the
    base delay of 1000 ms is never used. *)
Theorem first_retry_delay_is_1500_within_jitter (w : World) (event : CloseEvent) :
  reconnectAttempts (this w) = 0%nat ->
  code event <> 1000%Z ->
  (0 <= next_random w)%Q -> (next_random w < 1)%Q ->
  exists d : Z,
    Notify (OnReconnecting 1 d) ∈ emitted w (exec (XWS.handleClose event) w)
    /\ SetTimeout (next_timer (browser w)) d
       ∈ emitted w (exec (XWS.handleClose event) w)
    /\ connected (this (exec (XWS.handleClose event) w)) = false
    /\ (1350 <= d <= 1650)%Z.
Proof.
  intros Hn Hc H0 H1.
  exists (Math_round (jitteredDelay 1 (next_random w))).
  split; [|split; [|split]]; [| | |apply first_retry_delay_band; assumption].
  all: destruct event as [c why]; destruct_world w;
    unfold_monad_in Hn; unfold_monad_in Hc; subst attempts;
    unfold XWS.handleClose, XWS.scheduleReconnect, XWS.calculateReconnectDelay;
    cbn [code reason]; destruct (Z.eqb_spec c 1000) as [->|_]; [congruence|];
    destruct beat; unfold_monad; norm_output; try reflexivity;
    repeat first [ apply list_elem_of_here | apply list_elem_of_further ].
Qed.

Lemma first_retry_delay_is_1500_within_jitter_witness :
  exists d : Z,
    Notify (OnReconnecting 1 d)
      ∈ emitted (connected_world (1 # 2) (fun _ => Returns))
          (exec (XWS.handleClose (mkCloseEvent 1006 ""))
                (connected_world (1 # 2) (fun _ => Returns)))
    /\ SetTimeout 2 d
       ∈ emitted (connected_world (1 # 2) (fun _ => Returns))
           (exec (XWS.handleClose (mkCloseEvent 1006 ""))
                 (connected_world (1 # 2) (fun _ => Returns)))
    /\ connected (this (exec (XWS.handleClose (mkCloseEvent 1006 ""))
                             (connected_world (1 # 2) (fun _ => Returns)))) = false
    /\ (1350 <= d <= 1650)%Z.
Proof.
  apply (first_retry_delay_is_1500_within_jitter
           (connected_world (1 # 2) (fun _ => Returns)) (mkCloseEvent 1006 "")).
  - reflexivity.
  - simpl. lia.
  - vm_compute. discriminate.
  - reflexivity.
Defined.

(** The same at one point: with [Math.random()] returning 1/2 the delay
    reported and scheduled is exactly 1500 ms. *)
Lemma first_retry_delay_at_half :
  emitted (connected_world (1 # 2) (fun _ => Returns))
          (exec (XWS.handleClose (mkCloseEvent 1006 ""))
                (connected_world (1 # 2) (fun _ => Returns)))
  = [ClearInterval 1;
     ConsoleLog "[XentauriWS] Disconnected: Code 1006";
     Notify (OnDisconnected 1006 "Code 1006");
     ConsoleLog "[XentauriWS] Scheduling reconnect in 1500ms (attempt 1)";
     Notify (OnReconnecting 1 1500);
     SetTimeout 2 1500].
Proof. vm_compute. reflexivity. Qed.

(** C4: what the code does.  [scheduleReconnect] does not clear the timer
    it replaces.  After [connect()], the socket's [open] event, a
    [forceReconnect()] and then the close events of the old socket (closed
    by [connect], code 1005) and of the new one (connection failed, code
    1006), two retry timers are pending; [reconnectTimer] refers to the
    second only, so nothing can cancel the first. *)
Theorem two_abnormal_closes_leave_two_timers :
  exists w : World,
    run [call_connect; open_event 0; call_forceReconnect;
         close_event 0 (mkCloseEvent 1005 "");
         close_event 1 (mkCloseEvent 1006 "")]
        (kiosk (1 # 2) (fun _ => Returns)) = Some w
    /\ timeouts (browser w) = [2%positive; 3%positive]
    /\ reconnectTimer (this w) = Some 3%positive.
Proof.
  eexists. split; [vm_compute; reflexivity|]. split; reflexivity.
Qed.

(** In general: a timer that is pending when [scheduleReconnect] runs is
    still pending afterwards, next to the new one. *)
Lemma scheduleReconnect_keeps_pending_timer (w : World) (t : positive) :
  t ∈ timeouts (browser w) ->
  t ∈ timeouts (browser (exec XWS.scheduleReconnect w))
  /\ next_timer (browser w) ∈ timeouts (browser (exec XWS.scheduleReconnect w)).
Proof.
  intros Ht. destruct (scheduleReconnect_effect w) as (_ & _ & _ & E & _).
  rewrite E. split; apply elem_of_app; [left; exact Ht | right; left].
Qed.

(** ** Forced reconnection *)










(** The case the hypotheses leave out: a client whose URL the constructor
    rejects never has a socket; there [forceReconnect()] still cancels the
    pending timer, but [connect] falls into its [catch] block and schedules
    the next retry itself. *)
Lemma forceReconnect_with_rejected_url :
  let w := exec XWS.connect (boot (Some "pi-01") None (fun _ => Returns)
                                  (oracles (1 # 2) false)) in
  reconnectTimer (this w) = Some 1%positive
  /\ timeouts (browser w) = [1%positive]
  /\ sockets (browser (exec XWS.forceReconnect w)) = []
  /\ timeouts (browser (exec XWS.forceReconnect w)) = [2%positive]
  /\ reconnectAttempts (this (exec XWS.forceReconnect w)) = 1%nat.
Proof. cbv zeta. split_all; reflexivity. Qed.


(** ** The connected flag *)

Lemma run_reachable (es : list Event) :
  forall w w', reachable w -> run es w = Some w' -> reachable w'.
Proof.
  induction es as [|e es IH]; intros w w' Hw Hr; cbn [run] in Hr.
  - injection Hr as <-. exact Hw.
  - destruct (step e w) as [w1|] eqn:Hs; [|discriminate].
    apply (IH w1 w'); [|exact Hr]. apply (reachable_step w e w1 Hw Hs).
Qed.

Lemma connected_world_is_run (r : Q) (h : Command -> Outcome) :
  run [call_connect; open_event 0] (kiosk r h) = Some (connected_world r h).
Proof. vm_compute. reflexivity. Qed.

Lemma connected_world_reachable (r : Q) (h : Command -> Outcome) :
  reachable (connected_world r h).
Proof.
  apply (run_reachable [call_connect; open_event 0] (kiosk r h)).
  - apply reachable_boot.
  - apply connected_world_is_run.
Qed.










(** ** Heartbeat *)

Lemma filter_other_singleton (h : positive) :
  filter (fun x => x <> h) [h] = [].
Proof.
  rewrite filter_cons_False by (intros H; apply H; reflexivity).
  apply filter_nil.
Qed.

Lemma handlers_keep_heartbeat :
  keeps heartbeat_in_step XWS.connect
  /\ keeps heartbeat_in_step XWS.forceReconnect
  /\ keeps heartbeat_in_step XWS.handleError
  /\ keeps heartbeat_in_step XWS.heartbeatTick
  /\ (forall ev, keeps heartbeat_in_step (XWS.handleMessage ev))
  /\ (forall m, keeps heartbeat_in_step (XWS.send m)).
Proof.
  split_all; intros; keeps_by untouched.
Qed.

Ltac heartbeat_done :=
  split; [reflexivity | split; [intros H; first [reflexivity | destruct H; discriminate]
                               | intros H; first [discriminate | eexists; reflexivity]]].

(** [handleOpen] establishes the agreement from any state in which the
    client's interval timer, if any, is the only one. *)
Lemma handleOpen_heartbeat (w : World) :
  intervals (browser w) = option_list (heartbeatInterval (this w)) ->
  heartbeat_in_step (exec XWS.handleOpen w).
Proof.
  intros Hiv. destruct_world w. unfold_monad_in Hiv. subst ivals.
  unfold XWS.handleOpen, XWS.startHeartbeat, heartbeat_in_step.
  destruct beat as [hb|]; unfold_monad; cbn [option_list];
    rewrite ?filter_other_singleton; heartbeat_done.
Qed.

(** [handleClose] stops the heartbeat and clears the flag in the same turn,
    whatever the close code. *)
Lemma handleClose_heartbeat (event : CloseEvent) (w : World) :
  intervals (browser w) = option_list (heartbeatInterval (this w)) ->
  intervals (browser (exec (XWS.handleClose event) w)) = []
  /\ heartbeatInterval (this (exec (XWS.handleClose event) w)) = None
  /\ connected (this (exec (XWS.handleClose event) w)) = false.
Proof.
  intros Hiv. destruct event as [c why]. destruct_world w.
  unfold_monad_in Hiv. subst ivals.
  unfold XWS.handleClose, XWS.scheduleReconnect, XWS.calculateReconnectDelay.
  cbn [code reason].
  destruct (Z.eqb c 1000), beat as [hb|]; unfold_monad; cbn [option_list];
    rewrite ?filter_other_singleton; split_all; reflexivity.
Qed.

Lemma disconnect_heartbeat (w : World) :
  intervals (browser w) = option_list (heartbeatInterval (this w)) ->
  intervals (browser (exec XWS.disconnect w)) = []
  /\ heartbeatInterval (this (exec XWS.disconnect w)) = None
  /\ connected (this (exec XWS.disconnect w)) = false.
Proof.
  intros Hiv. destruct_world w. unfold_monad_in Hiv. subst ivals.
  unfold XWS.disconnect.
  destruct beat as [hb|], retry, sock as [s|]; unfold_monad;
    try (destruct (socks !! s) as [[]|]); unfold_monad; cbn [option_list];
    rewrite ?filter_other_singleton; split_all; reflexivity.
Qed.

Lemma stopped_heartbeat_in_step (w : World) :
  intervals (browser w) = []
  /\ heartbeatInterval (this w) = None
  /\ connected (this w) = false ->
  heartbeat_in_step w.
Proof.
  intros (H1 & H2 & H3). unfold heartbeat_in_step. rewrite H1, H2, H3.
  heartbeat_done.
Qed.

Lemma step_heartbeat (e : Event) (w w' : World) :
  heartbeat_in_step w -> step e w = Some w' -> heartbeat_in_step w'.
Proof.
  intros H Hs. pose proof H as [Hiv _].
  destruct handlers_keep_heartbeat as (Hc & Hf & He & Hh & Hm & Hsd).
  destruct e; cbn [step] in Hs;
    repeat match type of Hs with
           | context [match ?x with _ => _ end] => destruct x eqn:?
           end;
    try discriminate; injection Hs as <-.
  - apply handleOpen_heartbeat. exact Hiv.
  - exact (Hm event w H).
  - exact (Hm event w H).
  - apply stopped_heartbeat_in_step, handleClose_heartbeat. exact Hiv.
  - apply stopped_heartbeat_in_step, handleClose_heartbeat. exact Hiv.
  - apply stopped_heartbeat_in_step, handleClose_heartbeat. exact Hiv.
  - exact (He w H).
  - exact (He w H).
  - exact (He w H).
  - exact (Hc (expire_timeout id w) H).
  - exact (Hh w H).
  - exact (Hc w H).
  - apply stopped_heartbeat_in_step, disconnect_heartbeat. exact Hiv.
  - exact (Hf w H).
  - exact (Hsd message w H).
Qed.

Lemma reachable_heartbeat (w : World) : reachable w -> heartbeat_in_step w.
Proof.
  induction 1 as [a u h o | w e w' _ IH Hs].
  - unfold boot. unfold XWS.log. unfold_monad. unfold heartbeat_in_step. cbn.
    heartbeat_done.
  - exact (step_heartbeat e w w' IH Hs).
Qed.

(** The heartbeat callback transmits only when the flag is set and the
    current socket is open. *)
Lemma heartbeatTick_sends_on_open_socket (w : World) (s : nat) (frame : json) :
  WsSend s frame ∈ emitted w (exec XWS.heartbeatTick w) ->
  connected (this w) = true /\ ws (this w) = Some s /\ socket_state w s = Some OPEN.
Proof.
  destruct_world w. unfold XWS.heartbeatTick, XWS.sendHeartbeat, XWS.send.
  destruct conn; [destruct sock as [s0|]; [destruct (socks !! s0) as [[]|] eqn:Es|]|];
    unfold_monad; rewrite ?Es; unfold_monad;
    try match goal with
        | |- context [decide (?a <> OPEN)] =>
            let Hd := fresh in
            destruct (decide (a <> OPEN)) as [Hd|Hd];
              [try congruence | try (exfalso; apply Hd; discriminate)]
        end;
    unfold_monad; rewrite ?Es; unfold_monad; norm_output;
    rewrite ?drop_all; intros Hin;
    repeat (apply elem_of_cons in Hin as [Hin|Hin]; [try discriminate|]);
    try (apply elem_of_nil in Hin; destruct Hin).
  injection Hin as -> _. split_all; [reflexivity|reflexivity|exact Es].
Qed.

(** C8, as stated, fails for forced reconnection: [forceReconnect()] on a
    connected client replaces the socket by one that is still connecting
    and leaves the heartbeat timer running. *)
Lemma forceReconnect_leaves_heartbeat_running :
  let w := connected_world 0 (fun _ => Returns) in
  reachable w
  /\ intervals (browser w) = [1%positive]
  /\ intervals (browser (exec XWS.forceReconnect w)) = [1%positive]
  /\ heartbeatInterval (this (exec XWS.forceReconnect w)) = Some 1%positive
  /\ ws (this (exec XWS.forceReconnect w)) = Some 1%nat
  /\ socket_state (exec XWS.forceReconnect w) 1 = Some CONNECTING
  /\ step (interval_fires 1) (exec XWS.forceReconnect w) <> None.
Proof.
  split; [apply connected_world_reachable|].
  split_all; try reflexivity. vm_compute. discriminate.
Qed.

(** C8, amended.  In every reachable state the heartbeat timer is active
    exactly when the [connected] flag is set, and it is the only interval
    timer of the client.  Every close event and [disconnect()] stop it, and
    clear the flag, in the same turn.  The heartbeat callback sends a frame
    only over a current socket that is open, so none is sent on a closed
    session. *)
Theorem heartbeat_active_iff_connected (w : World) :
  reachable w ->
  (is_Some (heartbeatInterval (this w)) <-> connected (this w) = true)
  /\ intervals (browser w) = option_list (heartbeatInterval (this w))
  /\ (forall event,
      intervals (browser (exec (XWS.handleClose event) w)) = []
      /\ heartbeatInterval (this (exec (XWS.handleClose event) w)) = None
      /\ connected (this (exec (XWS.handleClose event) w)) = false)
  /\ (intervals (browser (exec XWS.disconnect w)) = []
      /\ heartbeatInterval (this (exec XWS.disconnect w)) = None
      /\ connected (this (exec XWS.disconnect w)) = false)
  /\ (forall s frame,
      WsSend s frame ∈ emitted w (exec XWS.heartbeatTick w) ->
      connected (this w) = true /\ ws (this w) = Some s
      /\ socket_state w s = Some OPEN).
Proof.
  intros Hr. destruct (reachable_heartbeat w Hr) as [Hiv Hiff].
  split; [exact Hiff|]. split; [exact Hiv|].
  split; [intros event; apply handleClose_heartbeat, Hiv|].
  split; [apply disconnect_heartbeat, Hiv|].
  apply heartbeatTick_sends_on_open_socket.
Qed.

Lemma heartbeat_active_iff_connected_witness :
  is_Some (heartbeatInterval (this (connected_world 0 (fun _ => Returns))))
  <-> connected (this (connected_world 0 (fun _ => Returns))) = true.
Proof.
  apply (heartbeat_active_iff_connected (connected_world 0 (fun _ => Returns))).
  apply (reachable_step (exec XWS.connect (kiosk 0 (fun _ => Returns))) (open_event 0)).
  - apply (reachable_step (kiosk 0 (fun _ => Returns)) call_connect).
    + apply reachable_boot.
    + reflexivity.
  - vm_compute. reflexivity.
Defined.


(** * Further properties of the client *)

(** ** Sending *)



(** ** Heartbeat *)

Lemma heartbeatTick_on_open_socket (w : World) (s : nat) :
  connected (this w) = true -> ws (this w) = Some s ->
  socket_state w s = Some OPEN ->
  completion XWS.heartbeatTick w = Ok tt
  /\ emitted w (exec XWS.heartbeatTick w) = [WsSend s heartbeat_frame]
  /\ connection_state (exec XWS.heartbeatTick w) = connection_state w.
Proof.
  intros Hc Hs Hst. destruct_world w.
  unfold_monad_in Hc. unfold_monad_in Hs. unfold_monad_in Hst. subst conn sock.
  unfold XWS.heartbeatTick, XWS.sendHeartbeat, XWS.send.
  unfold_monad. rewrite Hst. unfold_monad.
  destruct (decide (OPEN <> OPEN)) as [Hne|_]; [congruence|].
  unfold_monad. rewrite Hst. unfold_monad. norm_output.
  split_all; reflexivity.
Qed.

Lemma handleOpen_effect (w : World) :
  completion XWS.handleOpen w = Ok tt
  /\ connected (this (exec XWS.handleOpen w)) = true
  /\ reconnectAttempts (this (exec XWS.handleOpen w)) = 0%nat
  /\ heartbeatInterval (this (exec XWS.handleOpen w)) = Some (next_timer (browser w))
  /\ intervals (browser (exec XWS.handleOpen w))
     = match heartbeatInterval (this w) with
       | Some old => filter (fun x => x <> old) (intervals (browser w))
       | None => intervals (browser w)
       end ++ [next_timer (browser w)]
  /\ ws (this (exec XWS.handleOpen w)) = ws (this w)
  /\ sockets (browser (exec XWS.handleOpen w)) = sockets (browser w)
  /\ timeouts (browser (exec XWS.handleOpen w)) = timeouts (browser w)
  /\ reconnectTimer (this (exec XWS.handleOpen w)) = reconnectTimer (this w)
  /\ SetInterval (next_timer (browser w)) CONFIG.HEARTBEAT_INTERVAL
     ∈ emitted w (exec XWS.handleOpen w)
  /\ last (emitted w (exec XWS.handleOpen w)) = Some (Notify OnConnected).
Proof.
  destruct_world w. unfold XWS.handleOpen, XWS.startHeartbeat.
  destruct beat; unfold_monad; norm_output; split_all; try reflexivity;
    repeat first [ apply list_elem_of_here | apply list_elem_of_further ].
Qed.

(** X2.  When the current socket opens, the client starts one heartbeat
    timer with the configured period of 30000 ms and resets the retry
    counter; each time that timer fires, exactly one heartbeat envelope
    [{type: heartbeat}] goes out on that socket and nothing else changes. *)
Theorem heartbeat_after_open (w : World) (s : nat) :
  ws (this w) = Some s ->
  socket_state w s = Some CONNECTING ->
  exists w1 w2 id,
    step (open_event s) w = Some w1
    /\ heartbeatInterval (this w1) = Some id
    /\ SetInterval id 30000 ∈ emitted w w1
    /\ reconnectAttempts (this w1) = 0%nat
    /\ connected (this w1) = true
    /\ step (interval_fires id) w1 = Some w2
    /\ emitted w1 w2 = [WsSend s (JObj [("type", JStr "heartbeat")])]
    /\ connection_state w2 = connection_state w1.
Proof.
  intros Hs Hst.
  set (w0 := set_socket_state s OPEN w).
  destruct (handleOpen_effect w0)
    as (_ & Hc & Ha & Hhb & Hiv & Hws & Hso & _ & _ & Hset & _).
  assert (Hopen : socket_state (exec XWS.handleOpen w0) s = Some OPEN).
  { unfold socket_state. rewrite Hso. unfold w0. cbn.
    apply list_lookup_insert_eq. apply lookup_lt_Some in Hst. exact Hst. }
  assert (Hcur : ws (this (exec XWS.handleOpen w0)) = Some s).
  { rewrite Hws. exact Hs. }
  destruct (heartbeatTick_on_open_socket _ s Hc Hcur Hopen) as (_ & Htick & Hsame).
  exists (exec XWS.handleOpen w0), (exec XWS.heartbeatTick (exec XWS.handleOpen w0)),
    (next_timer (browser w)).
  split_all.
  - cbn [step]. rewrite Hst. reflexivity.
  - exact Hhb.
  - exact Hset.
  - exact Ha.
  - exact Hc.
  - cbn [step]. rewrite Hiv.
    destruct (decide (next_timer (browser w)
                       ∈ match heartbeatInterval (this w0) with
                         | Some old => filter (fun x => x <> old) (intervals (browser w0))
                         | None => intervals (browser w0)
                         end ++ [next_timer (browser w0)])) as [_|Hn];
      [reflexivity|].
    exfalso. apply Hn. apply elem_of_app. right. left.
  - exact Htick.
  - exact Hsame.
Qed.

Lemma heartbeat_after_open_witness :
  exists w1 w2 id,
    step (open_event 0) (exec XWS.connect (kiosk 0 (fun _ => Returns))) = Some w1
    /\ heartbeatInterval (this w1) = Some id
    /\ SetInterval id 30000 ∈ emitted (exec XWS.connect (kiosk 0 (fun _ => Returns))) w1
    /\ reconnectAttempts (this w1) = 0%nat
    /\ connected (this w1) = true
    /\ step (interval_fires id) w1 = Some w2
    /\ emitted w1 w2 = [WsSend 0%nat (JObj [("type", JStr "heartbeat")])]
    /\ connection_state w2 = connection_state w1.
Proof.
  apply (heartbeat_after_open (exec XWS.connect (kiosk 0 (fun _ => Returns))) 0).
  - reflexivity.
  - reflexivity.
Defined.

(** ** Disconnecting *)

(** X3.  [disconnect()] never throws and leaves the client disconnected:
    no current socket, flag cleared, both timer fields empty and the timers
    they referred to cancelled; the socket it held is no longer live.  A
    later [send] fails, and a second [disconnect()] changes nothing. *)
Theorem disconnect_is_final_and_idempotent (w : World) :
  completion XWS.disconnect w = Ok tt
  /\ ws (this (exec XWS.disconnect w)) = None
  /\ connected (this (exec XWS.disconnect w)) = false
  /\ reconnectTimer (this (exec XWS.disconnect w)) = None
  /\ heartbeatInterval (this (exec XWS.disconnect w)) = None
  /\ (forall t, reconnectTimer (this w) = Some t ->
      t ∉ timeouts (browser (exec XWS.disconnect w)))
  /\ (forall h, heartbeatInterval (this w) = Some h ->
      h ∉ intervals (browser (exec XWS.disconnect w)))
  /\ (forall s st, ws (this w) = Some s ->
      socket_state (exec XWS.disconnect w) s = Some st -> ~ is_live st)
  /\ (forall message,
      completion (XWS.send message) (exec XWS.disconnect w) = Ok false)
  /\ connection_state (exec XWS.disconnect (exec XWS.disconnect w))
     = connection_state (exec XWS.disconnect w).
Proof.
  destruct_world w. unfold XWS.disconnect, XWS.send.
  destruct beat as [hb|], retry as [rt|], sock as [s|]; unfold_monad;
    try (destruct (socks !! s) as [[]|] eqn:Es); unfold_monad;
    split_all; try reflexivity;
    try (intros ? Hx; try discriminate Hx; injection Hx as <-;
         rewrite list_elem_of_filter; tauto);
    try (intros ? ? Hx; discriminate Hx).
  all: intros s' st Hs Hst; injection Hs as <-; intros [Hl|Hl]; subst st;
    first [ rewrite list_lookup_insert_eq in Hst by (apply lookup_lt_Some in Es; exact Es);
            discriminate Hst
          | congruence ].
Qed.

Lemma disconnect_is_final_and_idempotent_witness :
  1%positive ∉ intervals (browser (exec XWS.disconnect
                                     (connected_world 0 (fun _ => Returns)))).
Proof.
  apply (disconnect_is_final_and_idempotent (connected_world 0 (fun _ => Returns))).
  reflexivity.
Defined.

(** ** A client without agent id *)

Lemma connect_without_agent (w : World) :
  XWS.agent_not_configured (agentId (this w)) = true ->
  completion XWS.connect w = Ok tt
  /\ connection_state (exec XWS.connect w) = connection_state w
  /\ emitted w (exec XWS.connect w)
     = [ConsoleError "[XentauriWS] Agent ID not configured. Please set CONFIG.AGENT_ID";
        Notify OnError_config].
Proof.
  intros Ha. destruct_world w. unfold_monad_in Ha.
  unfold XWS.connect. unfold_monad. rewrite Ha. unfold_monad. norm_output.
  split_all; reflexivity.
Qed.

Lemma step_idle_without_agent (e : Event) (w w' : World) :
  XWS.agent_not_configured (agentId (this w)) = true ->
  idle w -> step e w = Some w' ->
  idle w' /\ agentId (this w') = agentId (this w).
Proof.
  intros Ha (Hso & Hto & Hiv & Hws & Hc & Hrt & Hhb) Hs.
  destruct_world w. unfold_monad_in Ha.
  unfold_monad_in Hso. unfold_monad_in Hto. unfold_monad_in Hiv.
  unfold_monad_in Hws. unfold_monad_in Hc. unfold_monad_in Hrt. unfold_monad_in Hhb.
  subst. unfold idle.
  destruct e; cbn [step] in Hs; unfold_monad_in Hs;
    try (rewrite lookup_nil in Hs; discriminate Hs);
    try (destruct (decide (id ∈ [])) as [Hin|_];
         [apply elem_of_nil in Hin; destruct Hin | discriminate Hs]);
    injection Hs as <-.
  - unfold XWS.connect. unfold_monad. rewrite Ha. unfold_monad. split_all; reflexivity.
  - unfold XWS.disconnect. unfold_monad. split_all; reflexivity.
  - unfold XWS.forceReconnect, XWS.connect. unfold_monad. rewrite Ha. unfold_monad.
    split_all; reflexivity.
  - unfold XWS.send. unfold_monad. split_all; reflexivity.
Qed.

(** X4.  A client constructed without a usable agent id (none, the empty
    string, or the placeholder [YOUR_AGENT_ID_HERE]) never creates a socket
    and never schedules a timer, whatever is called on it; every
    [connect()] reports the configuration error to [onError] once and
    changes nothing. *)
Theorem unconfigured_client_stays_idle
    (a u : option string) (h : Command -> Outcome) (o : Oracles)
    (es : list Event) (w : World) :
  XWS.agent_not_configured (agentId (XWS.constructor a u h)) = true ->
  run es (boot a u h o) = Some w ->
  idle w
  /\ completion XWS.connect w = Ok tt
  /\ connection_state (exec XWS.connect w) = connection_state w
  /\ emitted w (exec XWS.connect w)
     = [ConsoleError "[XentauriWS] Agent ID not configured. Please set CONFIG.AGENT_ID";
        Notify OnError_config].
Proof.
  intros Ha Hr.
  assert (Hgen : forall es w0 w1,
            XWS.agent_not_configured (agentId (this w0)) = true ->
            idle w0 -> run es w0 = Some w1 ->
            idle w1 /\ XWS.agent_not_configured (agentId (this w1)) = true).
  { clear. induction es as [|e es IH]; intros w0 w1 Ha Hi Hr; cbn [run] in Hr.
    - injection Hr as <-. split; assumption.
    - destruct (step e w0) as [w'|] eqn:Hs; [|discriminate].
      destruct (step_idle_without_agent e w0 w' Ha Hi Hs) as [Hi' Hag].
      apply (IH w' w1); [rewrite Hag; exact Ha | exact Hi' | exact Hr]. }
  destruct (Hgen es (boot a u h o) w) as [Hi Ha']; [exact Ha | | exact Hr |].
  - unfold boot, idle. cbn. split_all; reflexivity.
  - split; [exact Hi|]. apply connect_without_agent, Ha'.
Qed.

Lemma unconfigured_client_stays_idle_witness :
  idle (exec XWS.forceReconnect
          (boot (Some "YOUR_AGENT_ID_HERE") None (fun _ => Returns) (oracles 0 true))).
Proof.
  apply (unconfigured_client_stays_idle
           (Some "YOUR_AGENT_ID_HERE") None (fun _ => Returns) (oracles 0 true)
           [call_forceReconnect]).
  - reflexivity.
  - reflexivity.
Defined.

(** ** Bounds of the backoff *)

Section BackoffBounds.
Local Open Scope Q_scope.

Lemma Math_pow_from_nine (k : nat) : 30 <= Math_pow (3 # 2) (9 + k).
Proof.
  induction k as [|k IH].
  - vm_compute. discriminate.
  - replace (9 + S k)%nat with (S (9 + k)) by lia. cbn [Math_pow]. lra.
Qed.

Lemma cap_saturates (n : nat) : (9 <= n)%nat -> cap n == 30000.
Proof.
  intros Hn. replace n with (9 + (n - 9))%nat by lia.
  pose proof (Math_pow_from_nine (n - 9)) as H.
  unfold cap, Math_min, CONFIG.RECONNECT.BASE_DELAY, CONFIG.RECONNECT.MAX_DELAY,
    CONFIG.RECONNECT.MULTIPLIER.
  apply Q.min_r. lra.
Qed.

Lemma cap_monotone (n : nat) : cap n <= cap (S n).
Proof.
  unfold cap, Math_min, CONFIG.RECONNECT.BASE_DELAY, CONFIG.RECONNECT.MAX_DELAY,
    CONFIG.RECONNECT.MULTIPLIER.
  pose proof (Math_pow_ge_1 (3 # 2) n) as H.
  assert (H1 : 1 <= Math_pow (3 # 2) n) by (apply H; lra).
  apply Q.min_le_compat_r. cbn [Math_pow]. lra.
Qed.

End BackoffBounds.

(** X5.  Whatever the attempt count and the random draw, the reconnect delay
    is between 900 and 33000 ms; the capped delay never decreases from one
    attempt to the next, and from the ninth attempt on it is the maximum of
    30000 ms, so the delay is at least 27000 ms. *)
Theorem reconnect_delay_is_bounded (w : World) :
  (0 <= next_random w)%Q -> (next_random w < 1)%Q ->
  exists d : Z,
    completion XWS.calculateReconnectDelay w = Ok d
    /\ (900 <= d <= 33000)%Z
    /\ ((9 <= reconnectAttempts (this w))%nat -> (27000 <= d)%Z)
    /\ (cap (reconnectAttempts (this w)) <= cap (S (reconnectAttempts (this w))))%Q.
Proof.
  intros H0 H1.
  set (n := reconnectAttempts (this w)). set (r := next_random w) in *.
  exists (Math_round (jitteredDelay n r)).
  destruct (jitteredDelay_band n r H0 H1) as [Hlo Hhi].
  destruct (cap_bounds n) as [Hc1 Hc2].
  unfold CONFIG.RECONNECT.JITTER in Hlo, Hhi.
  split; [apply calculateReconnectDelay_value|].
  split; [split|split].
  - change 900%Z with (Math_round 900). apply Math_round_mono. lra.
  - change 33000%Z with (Math_round 33000). apply Math_round_mono. lra.
  - intros Hn. pose proof (cap_saturates n Hn) as Hs. rewrite Hs in Hlo.
    change 27000%Z with (Math_round 27000). apply Math_round_mono. lra.
  - apply cap_monotone.
Qed.

Lemma reconnect_delay_is_bounded_witness :
  exists d : Z,
    completion XWS.calculateReconnectDelay (after_attempts 12 (1 # 3)) = Ok d
    /\ (900 <= d <= 33000)%Z
    /\ ((9 <= 12)%nat -> (27000 <= d)%Z)
    /\ (cap 12 <= cap 13)%Q.
Proof.
  apply (reconnect_delay_is_bounded (after_attempts 12 (1 # 3))).
  - vm_compute. discriminate.
  - reflexivity.
Defined.

(** ** One live socket *)

Lemma no_live_without_current (socks : list ReadyState) :
  (forall i st, socks !! i = Some st -> is_live st -> @None nat = Some i) ->
  no_live socks.
Proof. intros L j st Hj Hl. discriminate (L j st Hj Hl). Qed.

Lemma no_live_after_close (socks : list ReadyState) (s : nat) :
  (forall i st, socks !! i = Some st -> is_live st -> Some s = Some i) ->
  no_live (<[s := CLOSING]> socks).
Proof.
  intros L j st Hj Hl. destruct (decide (j = s)) as [->|Hne].
  - apply list_lookup_insert_Some in Hj as [(_ & <- & _)|(Hne & _)].
    + destruct Hl; discriminate.
    + congruence.
  - rewrite list_lookup_insert_ne in Hj by congruence.
    specialize (L j st Hj Hl). congruence.
Qed.

Lemma no_live_if_current_dead (socks : list ReadyState) (s : nat) :
  (forall st, socks !! s = Some st -> ~ is_live st) ->
  (forall i st, socks !! i = Some st -> is_live st -> Some s = Some i) ->
  no_live socks.
Proof.
  intros Hdead L j st Hj Hl. pose proof (L j st Hj Hl) as E.
  injection E as <-. exact (Hdead st Hj Hl).
Qed.

Lemma live_in_snoc (socks : list ReadyState) (i : nat) (st : ReadyState) :
  no_live socks ->
  (socks ++ [CONNECTING]) !! i = Some st -> is_live st ->
  Some (length socks) = Some i.
Proof.
  intros Hn Hi Hl. apply lookup_app_Some in Hi as [Hi|[Hge Hi]].
  - destruct (Hn i st Hi Hl).
  - apply list_lookup_singleton_Some in Hi as [Hi _]. f_equal. lia.
Qed.

Lemma connect_keeps_one_live (w : World) :
  one_live_socket w -> one_live_socket (exec XWS.connect w).
Proof.
  destruct (XWS.agent_not_configured (agentId (this w))) eqn:Ha;
    destruct (WebSocket_accepts (env w) (connect_url w)) eqn:Hu;
    unfold one_live_socket; destruct_world w;
    unfold_monad_in Ha; unfold_monad_in Hu; unfold_monad; intros L;
    unfold XWS.connect, XWS.buildUrl, XWS.scheduleReconnect,
      XWS.calculateReconnectDelay;
    unfold_monad; rewrite Ha; unfold_monad; try exact L.
  all: destruct retry as [t|]; unfold_monad;
    (destruct sock as [s|];
     [ destruct (socks !! s) as [[]|] eqn:Es | ]);
    unfold_monad; rewrite Hu; unfold_monad.
  all: intros i st Hi Hl.
  all: first
    [ (* a new socket was appended *)
      first [ apply (live_in_snoc _ i st) in Hi; [exact Hi | | exact Hl]
            | apply (live_in_snoc _ i st) in Hi; [rewrite length_insert in Hi; exact Hi | | exact Hl] ];
      first [ apply no_live_after_close, L
            | apply no_live_without_current, L
            | apply (no_live_if_current_dead _ s);
              [intros st' Hst' [E|E]; congruence | exact L] ]
    | (* the constructor threw: no live socket is left *)
      exfalso;
      first [ exact (no_live_after_close _ _ L i st Hi Hl)
            | exact (no_live_without_current _ L i st Hi Hl)
            | refine (no_live_if_current_dead _ s _ L i st Hi Hl);
              intros st' Hst' [E|E]; congruence ] ].
Qed.

Ltac live_leaf :=
  idtac;
  match goal with
  | |- keeps _ XWS.connect => exact connect_keeps_one_live
  | _ => untouched
  end.

Lemma handlers_keep_one_live :
  keeps one_live_socket XWS.forceReconnect
  /\ keeps one_live_socket XWS.handleOpen
  /\ keeps one_live_socket XWS.handleError
  /\ keeps one_live_socket XWS.heartbeatTick
  /\ (forall ev, keeps one_live_socket (XWS.handleMessage ev))
  /\ (forall ev, keeps one_live_socket (XWS.handleClose ev))
  /\ (forall m, keeps one_live_socket (XWS.send m)).
Proof.
  split_all; intros; try unfold XWS.forceReconnect; keeps_by live_leaf.
Qed.

Lemma disconnect_keeps_one_live (w : World) :
  one_live_socket w -> one_live_socket (exec XWS.disconnect w).
Proof.
  unfold one_live_socket. destruct_world w. unfold_monad. intros L.
  unfold XWS.disconnect.
  destruct beat, retry, sock as [s|]; unfold_monad;
    try (destruct (socks !! s) as [[]|] eqn:Es); unfold_monad;
    intros i st Hi Hl; exfalso;
    first [ exact (no_live_after_close _ _ L i st Hi Hl)
          | exact (no_live_without_current _ L i st Hi Hl)
          | refine (no_live_if_current_dead _ s _ L i st Hi Hl);
            intros st' Hst' [E|E]; congruence ].
Qed.

Lemma set_socket_state_one_live (w : World) (s : nat) (new : ReadyState) :
  one_live_socket w ->
  (is_live new -> exists old, socket_state w s = Some old /\ is_live old) ->
  one_live_socket (set_socket_state s new w).
Proof.
  unfold one_live_socket, socket_state. intros L Hnew i st Hi Hl. cbn in *.
  destruct (decide (i = s)) as [->|Hne].
  - apply list_lookup_insert_Some in Hi as [(_ & <- & _)|(Hne & _)]; [|congruence].
    destruct (Hnew Hl) as (old & Hold & Hlo). exact (L s old Hold Hlo).
  - rewrite list_lookup_insert_ne in Hi by congruence. exact (L i st Hi Hl).
Qed.

Lemma step_keeps_one_live (e : Event) (w w' : World) :
  one_live_socket w -> step e w = Some w' -> one_live_socket w'.
Proof.
  intros L Hs.
  destruct handlers_keep_one_live as (Hf & Ho & He & Hh & Hm & Hcl & Hsd).
  assert (Hdead : forall s, one_live_socket (set_socket_state s CLOSED w)).
  { intros s. apply set_socket_state_one_live; [exact L|].
    intros [E|E]; discriminate. }
  destruct e; cbn [step] in Hs;
    repeat match type of Hs with
           | context [match ?x with _ => _ end] => destruct x eqn:?
           end;
    try discriminate; injection Hs as <-.
  - apply Ho. apply set_socket_state_one_live; [exact L|].
    intros _. exists CONNECTING. split; [assumption | left; reflexivity].
  - exact (Hm event w L).
  - exact (Hm event w L).
  - exact (Hcl event _ (Hdead sock)).
  - exact (Hcl event _ (Hdead sock)).
  - exact (Hcl event _ (Hdead sock)).
  - exact (He w L).
  - exact (He w L).
  - exact (He w L).
  - apply connect_keeps_one_live. exact L.
  - exact (Hh w L).
  - apply connect_keeps_one_live, L.
  - apply disconnect_keeps_one_live, L.
  - exact (Hf w L).
  - exact (Hsd message w L).
Qed.

(** X6.  At most one live transport session: in every reachable state, a
    socket that is connecting or open is the one [this.ws] refers to; every
    other socket the client created is closing or closed. *)
Theorem at_most_one_live_socket (w : World) (i j : nat) (st st' : ReadyState) :
  reachable w ->
  socket_state w i = Some st -> is_live st ->
  socket_state w j = Some st' -> is_live st' ->
  i = j /\ ws (this w) = Some i.
Proof.
  intros Hr Hi Hli Hj Hlj.
  assert (L : one_live_socket w).
  { clear i j st st' Hi Hli Hj Hlj. induction Hr as [a u h o | w e w' _ IH Hs].
    - intros i st Hi. unfold boot, socket_state in Hi. cbn in Hi.
      rewrite lookup_nil in Hi. discriminate.
    - exact (step_keeps_one_live e w w' IH Hs). }
  pose proof (L i st Hi Hli) as E1. pose proof (L j st' Hj Hlj) as E2.
  split; [congruence | exact E1].
Qed.

Lemma at_most_one_live_socket_witness :
  1%nat = 1%nat
  /\ ws (this (exec XWS.forceReconnect (connected_world 0 (fun _ => Returns))))
     = Some 1%nat.
Proof.
  apply (at_most_one_live_socket
           (exec XWS.forceReconnect (connected_world 0 (fun _ => Returns)))
           1 1 CONNECTING CONNECTING).
  - apply (reachable_step (connected_world 0 (fun _ => Returns)) call_forceReconnect).
    + apply (reachable_step (exec XWS.connect (kiosk 0 (fun _ => Returns)))
                            (open_event 0)).
      * apply (reachable_step (kiosk 0 (fun _ => Returns)) call_connect).
        -- apply reachable_boot.
        -- reflexivity.
      * vm_compute. reflexivity.
    + reflexivity.
  - reflexivity.
  - left. reflexivity.
  - reflexivity.
  - left. reflexivity.
Defined.

(** ** What schedules a retry *)

Ltac quiet_leaf :=
  idtac;
  match goal with
  | |- forall w, _ -> _ =>
      let w := fresh in let l := fresh in let H := fresh in let F := fresh in
      intros w (l & H & F);
      first
        [ exists l; split; [exact H | exact F]
        | eexists (l ++ [_]); split;
          [ unfold output in *; cbn; cbn in H; rewrite H; rewrite <- app_assoc; reflexivity
          | apply Forall_app; split; [exact F | repeat constructor; intros []] ] ]
  end.

Lemma quiet_emitted (w w' : World) :
  quiet_since (output w) w' -> ~ Exists schedules_timeout (emitted w w').
Proof.
  intros (l & H & F) Hex. unfold emitted, output in *.
  rewrite H, drop_app_length in Hex.
  apply Exists_exists in Hex as (e & Hin & He).
  rewrite Forall_forall in F. exact (F e Hin He).
Qed.

Lemma quiet_start (w : World) : quiet_since (output w) w.
Proof. exists []. split; [symmetry; apply app_nil_r | constructor]. Qed.

Lemma handlers_keep_quiet (t0 : list Effect) :
  keeps (quiet_since t0) XWS.disconnect
  /\ keeps (quiet_since t0) XWS.handleOpen
  /\ keeps (quiet_since t0) XWS.handleError
  /\ keeps (quiet_since t0) XWS.heartbeatTick
  /\ (forall ev, keeps (quiet_since t0) (XWS.handleMessage ev))
  /\ (forall why, keeps (quiet_since t0) (XWS.handleClose (mkCloseEvent 1000 why)))
  /\ (forall m, keeps (quiet_since t0) (XWS.send m)).
Proof.
  split_all; intros;
    try (unfold XWS.handleClose; cbn [code reason Z.eqb Pos.eqb negb]);
    keeps_by quiet_leaf.
Qed.

Lemma connect_schedules_nothing (w : World) :
  WebSocket_accepts (env w) (connect_url w) = true ->
  ~ Exists schedules_timeout (emitted w (exec XWS.connect w))
  /\ ~ Exists schedules_timeout (emitted w (exec XWS.forceReconnect w)).
Proof.
  intros Hu.
  destruct (XWS.agent_not_configured (agentId (this w))) eqn:Ha;
    destruct_world w; unfold_monad_in Ha; unfold_monad_in Hu;
    unfold XWS.forceReconnect, XWS.connect, XWS.buildUrl; split;
    destruct retry as [t|]; unfold_monad; rewrite Ha; unfold_monad;
    try (norm_output; no_such_effect);
    (destruct sock as [s|];
     [ destruct (socks !! s) as [[]|] eqn:Es | ]);
    unfold_monad; rewrite Hu; unfold_monad; norm_output; no_such_effect.
Qed.

(** X7.  The close event is the sole trigger of retries: as long as the
    [WebSocket] constructor accepts the client's URL, a turn of the event
    loop schedules a retry timer only if it delivers a close event whose
    code is not 1000.  Error events, messages, heartbeat ticks, timers
    firing and the calls [connect], [disconnect], [forceReconnect] and
    [send] never do. *)
Theorem only_abnormal_close_schedules_retry (e : Event) (w w' : World) :
  WebSocket_accepts (env w) (connect_url w) = true ->
  step e w = Some w' ->
  Exists schedules_timeout (emitted w w') ->
  exists s event, e = close_event s event /\ code event <> 1000%Z.
Proof.
  intros Hu Hs Hex.
  destruct (handlers_keep_quiet (output w)) as (Hd & Ho & He & Hh & Hm & Hcl & Hsd).
  destruct e; cbn [step] in Hs;
    repeat match type of Hs with
           | context [match ?x with _ => _ end] => destruct x eqn:?
           end;
    try discriminate; injection Hs as <-;
    try (exists sock, event; split; [reflexivity|];
         intros Hc; destruct event as [c why]; cbn [code] in Hc; subst c;
         exfalso; revert Hex; apply quiet_emitted;
         apply (Hcl why (set_socket_state sock CLOSED w)), (quiet_start w));
    exfalso; revert Hex.
  - apply quiet_emitted. exact (Ho (set_socket_state sock OPEN w) (quiet_start w)).
  - apply quiet_emitted. exact (Hm event w (quiet_start w)).
  - apply quiet_emitted. exact (Hm event w (quiet_start w)).
  - apply quiet_emitted. exact (He w (quiet_start w)).
  - apply quiet_emitted. exact (He w (quiet_start w)).
  - apply quiet_emitted. exact (He w (quiet_start w)).
  - exact (proj1 (connect_schedules_nothing (expire_timeout id w) Hu)).
  - apply quiet_emitted. exact (Hh w (quiet_start w)).
  - exact (proj1 (connect_schedules_nothing w Hu)).
  - apply quiet_emitted. exact (Hd w (quiet_start w)).
  - exact (proj2 (connect_schedules_nothing w Hu)).
  - apply quiet_emitted. exact (Hsd message w (quiet_start w)).
Qed.

Lemma only_abnormal_close_schedules_retry_witness :
  exists s event,
    close_event 0 (mkCloseEvent 1006 "") = close_event s event
    /\ code event <> 1000%Z.
Proof.
  apply (only_abnormal_close_schedules_retry
           (close_event 0 (mkCloseEvent 1006 ""))
           (connected_world (1 # 2) (fun _ => Returns))
           (exec (XWS.handleClose (mkCloseEvent 1006 ""))
                 (set_socket_state 0 CLOSED (connected_world (1 # 2) (fun _ => Returns))))).
  - reflexivity.
  - vm_compute. reflexivity.
  - vm_compute. exists_effect.
Defined.

(** ** Acknowledgments *)



(** ** The retry cycle *)





(** * Configuration, storage and pairing *)

(** ** The socket URL *)

(** The default URL of the constructor is what the [WS_URL] getter yields
    for the configured backend. *)
Lemma CONFIG_WS_URL_is_getter : XWS.CONFIG_WS_URL = Config.WS_URL Config.BACKEND_URL.
Proof. reflexivity. Qed.

Lemma prefix_app_false (p q s : string) :
  String.prefix p s = false -> String.prefix (p +:+ q) s = false.
Proof.
  revert s. induction p as [|a p IH]; intros s H.
  - destruct s; discriminate H.
  - destruct s as [|b s]; [reflexivity|].
    change (String a p +:+ q) with (String a (p +:+ q)).
    cbn [String.prefix] in *.
    destruct (Ascii.ascii_dec a b); [apply IH, H | reflexivity].
Qed.

Lemma prefix_app_self (p s : string) : String.prefix p (p +:+ s) = true.
Proof.
  induction p as [|a p IH].
  - destruct s; reflexivity.
  - change (String a p +:+ s) with (String a (p +:+ s)). cbn [String.prefix].
    destruct (Ascii.ascii_dec a a); [exact IH | congruence].
Qed.

Lemma string_drop_app (p s : string) :
  Config.string_drop (String.length p) (p +:+ s) = s.
Proof.
  induction p as [|a p IH]; [reflexivity|].
  change (String a p +:+ s) with (String a (p +:+ s)). exact IH.
Qed.

(** X10.  The [WS_URL] getter maps an [https://] backend to a [wss://]
    socket URL and an [http://] backend to a [ws://] one, on the same host
    with the path [/ws/devices]; a backend URL without either scheme is
    taken as the host of a [ws://] URL. *)
Theorem WS_URL_follows_backend_scheme (host : string) :
  Config.WS_URL ("https://" +:+ host) = "wss://" +:+ host +:+ "/ws/devices"
  /\ Config.WS_URL ("http://" +:+ host) = "ws://" +:+ host +:+ "/ws/devices"
  /\ (String.prefix "http" host = false ->
      Config.WS_URL host = "ws://" +:+ host +:+ "/ws/devices").
Proof.
  unfold Config.WS_URL, Config.startsWith, Config.strip_http_scheme.
  split; [|split].
  - change ("https://" +:+ host) with ("https" +:+ "://" +:+ host) at 1.
    rewrite prefix_app_self, prefix_app_self.
    pose proof (string_drop_app "https://" host) as Hd.
    cbn [String.length] in Hd. rewrite Hd. reflexivity.
  - assert (H1 : String.prefix "https" ("http://" +:+ host) = false) by reflexivity.
    assert (H2 : String.prefix "https://" ("http://" +:+ host) = false) by reflexivity.
    rewrite H1, H2.
    rewrite prefix_app_self.
    pose proof (string_drop_app "http://" host) as Hd.
    cbn [String.length] in Hd. rewrite Hd. reflexivity.
  - intros Hp.
    pose proof (prefix_app_false "http" "s" host Hp) as H1.
    pose proof (prefix_app_false "http" "s://" host Hp) as H2.
    pose proof (prefix_app_false "http" "://" host Hp) as H3.
    change ("http" +:+ "s") with "https" in H1.
    change ("http" +:+ "s://") with "https://" in H2.
    change ("http" +:+ "://") with "http://" in H3.
    rewrite H1, H2, H3. reflexivity.
Qed.

Lemma WS_URL_follows_backend_scheme_witness :
  Config.WS_URL "localhost:8000" = "ws://localhost:8000/ws/devices".
Proof.
  apply (WS_URL_follows_backend_scheme "localhost:8000"). reflexivity.
Defined.

(** ** The stored agent id *)

(** X11.  With a working [localStorage], [setAgentId] followed by
    [getAgentId] returns the id and [isPaired] holds; after [clearAgentId]
    no id is stored and [isPaired] fails.  Neither function touches any
    other key. *)
Theorem agent_id_round_trip (p : Page) (a : string) :
  storage_blocked p = false -> storage_full p = false ->
  fst (Config.getAgentId (Config.setAgentId a p)) = Some a
  /\ fst (Config.isPaired (Config.setAgentId a p)) = true
  /\ fst (Config.getAgentId (Config.clearAgentId (Config.setAgentId a p))) = None
  /\ fst (Config.isPaired (Config.clearAgentId p)) = false
  /\ (forall k, k <> Config.STORAGE_KEY_AGENT_ID ->
      storage (Config.setAgentId a p) !! k = storage p !! k
      /\ storage (Config.clearAgentId p) !! k = storage p !! k).
Proof.
  intros Hb Hf.
  unfold Config.isPaired, Config.getAgentId, Config.setAgentId, Config.clearAgentId,
    getItem, setItem, removeItem.
  cbn. rewrite Hb, Hf. cbn. rewrite Hb. cbn. rewrite Hb. cbn.
  rewrite lookup_insert_eq, !lookup_delete_eq. split_all; try reflexivity.
  intros k Hk. rewrite lookup_insert_ne, lookup_delete_ne by congruence.
  split; reflexivity.
Qed.

Lemma agent_id_round_trip_witness :
  fst (Config.getAgentId (Config.setAgentId "pi-abc" (blank_page 0 0 NetworkFailure)))
  = Some "pi-abc".
Proof.
  apply (agent_id_round_trip (blank_page 0 0 NetworkFailure) "pi-abc"); reflexivity.
Defined.

(** X12.  When access to [localStorage] throws, the agent-id functions
    swallow the error: [getAgentId] yields [null], so the device counts as
    not paired, and [setAgentId] and [clearAgentId] change nothing; when
    only writes are refused, [setAgentId] leaves the stored id as it
    was. *)
Theorem agent_id_storage_failures (p : Page) (a : string) :
  (storage_blocked p = true ->
   fst (Config.getAgentId p) = None
   /\ fst (Config.isPaired p) = false
   /\ storage (Config.setAgentId a p) = storage p
   /\ storage (Config.clearAgentId p) = storage p)
  /\ (storage_full p = true ->
      storage (Config.setAgentId a p) = storage p
      /\ fst (Config.getAgentId (Config.setAgentId a p)) = fst (Config.getAgentId p)).
Proof.
  unfold Config.isPaired, Config.getAgentId, Config.setAgentId, Config.clearAgentId,
    getItem, setItem, removeItem.
  split; intros H.
  - rewrite H. cbn. split_all; reflexivity.
  - rewrite H, orb_true_r. cbn. split; [reflexivity|].
    destruct (storage_blocked p); reflexivity.
Qed.

Lemma agent_id_storage_failures_witness :
  fst (Config.isPaired blocked_page) = false.
Proof.
  apply (agent_id_storage_failures blocked_page "pi-abc"). reflexivity.
Defined.

(** ** Generated agent ids *)

Lemma charAt_in_range (r : Q) :
  (0 <= r)%Q -> (r < 1)%Q ->
  exists c, PairingService.charAt PairingService.chars
              (Qfloor (r * inject_Z (Z.of_nat (String.length PairingService.chars))))
            = String c EmptyString
            /\ In c (list_ascii_of_string PairingService.chars).
Proof.
  intros H0 H1.
  set (k := Qfloor (r * inject_Z (Z.of_nat (String.length PairingService.chars)))).
  assert (Hk : (0 <= k < 36)%Z).
  { unfold k. change (inject_Z (Z.of_nat (String.length PairingService.chars)))
      with (inject_Z 36).
    split.
    - change 0%Z with (Qfloor 0). apply Qfloor_resp_le.
      change (inject_Z 36) with (36 # 1)%Q. nra.
    - rewrite Zlt_Qlt. apply Qle_lt_trans with (r * inject_Z 36)%Q; [apply Qfloor_le|].
      change (inject_Z 36) with (36 # 1)%Q. nra. }
  unfold PairingService.charAt.
  destruct (Z.ltb_spec k 0) as [Hneg|_]; [lia|].
  assert (Hn : (Z.to_nat k < 36)%nat) by lia.
  revert Hn. generalize (Z.to_nat k). intros n Hn.
  do 36 (destruct n as [|n]; [eexists; split; [reflexivity | cbn; tauto]|]).
  lia.
Qed.

Lemma string_app_assoc (a b c : string) : (a +:+ b) +:+ c = a +:+ (b +:+ c).
Proof.
  induction a as [|x a IH]; [reflexivity|].
  change ((String x (a +:+ b)) +:+ c = String x (a +:+ (b +:+ c))).
  change (String x ((a +:+ b) +:+ c) = String x (a +:+ (b +:+ c))).
  rewrite IH. reflexivity.
Qed.

Lemma string_length_app (a b : string) :
  String.length (a +:+ b) = (String.length a + String.length b)%nat.
Proof.
  induction a as [|x a IH]; [reflexivity|].
  change (S (String.length (a +:+ b)) = S (String.length a + String.length b)).
  rewrite IH. reflexivity.
Qed.

Lemma generate_loop_spec (n : nat) :
  forall (acc : string) (p : Page),
    (forall i, (0 <= random p i)%Q /\ (random p i < 1)%Q) ->
    exists suffix,
      fst (PairingService.generate_loop n acc p) = acc +:+ suffix
      /\ String.length suffix = n
      /\ drawn_from PairingService.chars suffix
      /\ snd (PairingService.generate_loop n acc p)
         = set_random_at (random_at p + n) p.
Proof.
  induction n as [|n IH]; intros acc p Hr.
  - exists EmptyString. split_all.
    + cbn. induction acc as [|x acc IHa]; [reflexivity|].
      change (String x acc = String x (acc +:+ "")). rewrite <- IHa. reflexivity.
    + reflexivity.
    + intros c [].
    + cbn. rewrite Nat.add_0_r. destruct p; reflexivity.
  - destruct (Hr (random_at p)) as [H0 H1].
    destruct (charAt_in_range (random p (random_at p)) H0 H1) as (c & Hc & Hin).
    cbn [PairingService.generate_loop PairingService.Math_random_].
    rewrite Hc.
    destruct (IH (acc +:+ String c EmptyString) (set_random_at (S (random_at p)) p))
      as (s & Hs & Hl & Hd & Hp); [exact Hr|].
    exists (String c s). split_all.
    + rewrite Hs, string_app_assoc. reflexivity.
    + cbn. rewrite Hl. reflexivity.
    + intros x [<-|Hx]; [exact Hin | exact (Hd x Hx)].
    + rewrite Hp. cbn. unfold set_random_at. cbn. f_equal. lia.
Qed.

(** X13.  For every sequence of values in [0, 1) that [Math.random()] may
    return, [generateAgentId] yields ["pi-"] followed by exactly eight
    characters of [a-z0-9] (every index computed for [charAt] is in
    range), eleven characters in all.  Such an id passes the validation of
    [XentauriWebSocket.connect].  Nothing is stored. *)
Theorem generateAgentId_format (p : Page) :
  (forall i, (0 <= random p i)%Q /\ (random p i < 1)%Q) ->
  exists suffix,
    fst (PairingService.generateAgentId p) = "pi-" +:+ suffix
    /\ String.length suffix = 8%nat
    /\ drawn_from PairingService.chars suffix
    /\ String.length (fst (PairingService.generateAgentId p)) = 11%nat
    /\ XWS.agent_not_configured (Some (fst (PairingService.generateAgentId p))) = false
    /\ storage (snd (PairingService.generateAgentId p)) = storage p.
Proof.
  intros Hr. unfold PairingService.generateAgentId.
  destruct (generate_loop_spec 8 "pi-" p Hr) as (s & Hs & Hl & Hd & Hp).
  exists s. rewrite Hs, Hp. split_all; try assumption; try reflexivity.
  rewrite string_length_app, Hl. reflexivity.
Qed.

Lemma generateAgentId_format_witness :
  exists suffix,
    fst (PairingService.generateAgentId (blank_page 0 (1 # 2) NetworkFailure))
    = "pi-" +:+ suffix
    /\ String.length suffix = 8%nat
    /\ drawn_from PairingService.chars suffix
    /\ String.length
         (fst (PairingService.generateAgentId (blank_page 0 (1 # 2) NetworkFailure)))
       = 11%nat
    /\ XWS.agent_not_configured
         (Some (fst (PairingService.generateAgentId (blank_page 0 (1 # 2) NetworkFailure))))
       = false
    /\ storage (snd (PairingService.generateAgentId (blank_page 0 (1 # 2) NetworkFailure)))
       = storage (blank_page 0 (1 # 2) NetworkFailure).
Proof.
  apply (generateAgentId_format (blank_page 0 (1 # 2) NetworkFailure)).
  intros i. split; [vm_compute; discriminate | reflexivity].
Defined.

(** ** Pairing *)

Lemma generate_loop_page (n : nat) :
  forall acc p, snd (PairingService.generate_loop n acc p)
                = set_random_at (random_at p + n) p.
Proof.
  induction n as [|n IH]; intros acc p.
  - cbn. rewrite Nat.add_0_r. destruct p; reflexivity.
  - cbn [PairingService.generate_loop PairingService.Math_random_].
    rewrite IH. unfold set_random_at. cbn. f_equal. lia.
Qed.

Lemma same_site_refl (p : Page) : same_site p p.
Proof. unfold same_site. split_all; reflexivity. Qed.

Lemma same_site_trans (p q r : Page) : same_site p q -> same_site q r -> same_site p r.
Proof.
  unfold same_site. intros (A1 & A2 & A3 & A4 & A5 & A6) (B1 & B2 & B3 & B4 & B5 & B6).
  split_all; congruence.
Qed.

Lemma same_site_record (e : PageEffect) (p : Page) : same_site p (record e p).
Proof. unfold same_site. split_all; reflexivity. Qed.

Lemma generateAgentId_same_site (p : Page) :
  same_site p (snd (PairingService.generateAgentId p)).
Proof.
  unfold PairingService.generateAgentId. rewrite generate_loop_page.
  unfold same_site. split_all; reflexivity.
Qed.

Lemma getAgentId_same_site (p : Page) : same_site p (snd (Config.getAgentId p)).
Proof.
  unfold Config.getAgentId. destruct (getItem Config.STORAGE_KEY_AGENT_ID p); cbn.
  - apply same_site_refl.
  - apply same_site_record.
Qed.

Lemma getOrCreateAgentId_same_site (p : Page) :
  same_site p (snd (PairingService.getOrCreateAgentId p)).
Proof.
  unfold PairingService.getOrCreateAgentId.
  pose proof (getAgentId_same_site p) as H1.
  destruct (Config.getAgentId p) as [stored p1]. cbn [snd] in H1.
  pose proof (generateAgentId_same_site p1) as H2.
  destruct (PairingService.generateAgentId p1) as [fresh p2]. cbn [snd] in H2.
  assert (H3 : same_site p (record (PageLog "[PairingService] Generated new agent ID:") p2)).
  { eapply same_site_trans; [exact H1|]. eapply same_site_trans; [exact H2|].
    apply same_site_record. }
  destruct stored as [a|]; [destruct (String.eqb a "")|]; cbn [snd]; assumption.
Qed.

(** X14.  [getOrCreateAgentId] returns the stored agent id when there is a
    non-empty one, and a generated id otherwise; it never writes to
    storage, so a generated id is not persisted by it. *)
Theorem getOrCreateAgentId_prefers_stored (p : Page) :
  same_site p (snd (PairingService.getOrCreateAgentId p))
  /\ (forall a, storage_blocked p = false ->
      storage p !! Config.STORAGE_KEY_AGENT_ID = Some a -> a <> "" ->
      PairingService.getOrCreateAgentId p = (a, p))
  /\ ((storage_blocked p = true
       \/ storage p !! Config.STORAGE_KEY_AGENT_ID = None
       \/ storage p !! Config.STORAGE_KEY_AGENT_ID = Some "") ->
      fst (PairingService.getOrCreateAgentId p)
      = fst (PairingService.generateAgentId
               (snd (Config.getAgentId p)))).
Proof.
  split; [apply getOrCreateAgentId_same_site|]. split.
  - intros a Hb Ha Hne.
    unfold PairingService.getOrCreateAgentId, Config.getAgentId, getItem.
    rewrite Hb, Ha. apply String.eqb_neq in Hne. rewrite Hne. reflexivity.
  - intros H.
    unfold PairingService.getOrCreateAgentId, Config.getAgentId, getItem.
    destruct (storage_blocked p) eqn:Hb.
    + destruct (PairingService.generateAgentId _); reflexivity.
    + destruct H as [H|[H|H]]; [discriminate| |]; rewrite H; cbn;
        destruct (PairingService.generateAgentId p); reflexivity.
Qed.

Lemma getOrCreateAgentId_prefers_stored_witness :
  PairingService.getOrCreateAgentId
    (Config.setAgentId "pi-abc" (blank_page 0 0 NetworkFailure))
  = ("pi-abc", Config.setAgentId "pi-abc" (blank_page 0 0 NetworkFailure)).
Proof.
  apply (getOrCreateAgentId_prefers_stored
           (Config.setAgentId "pi-abc" (blank_page 0 0 NetworkFailure))).
  - reflexivity.
  - reflexivity.
  - discriminate.
Defined.

(** X15.  A pairing code that is not six characters long after upper-casing
    and trimming is refused on the spot: [pair] reports the failure and the
    page is exactly as before, so no request is sent, no agent id is
    generated or stored and nothing is logged. *)
Theorem pair_refuses_bad_code (p : Page) (pairingCode : string) :
  String.length (clean_code p pairingCode) <> 6%nat ->
  PairingService.pair pairingCode p
  = ({| PairingService.success := false;
        PairingService.error := Some (JStr "Pairing code must be 6 characters");
        PairingService.statusCode := None;
        PairingService.networkError := None;
        PairingService.device := None;
        PairingService.result_agentId := None |}, p).
Proof.
  intros H. unfold PairingService.pair. fold (clean_code p pairingCode).
  apply Nat.eqb_neq in H. rewrite H. reflexivity.
Qed.

Lemma pair_refuses_bad_code_witness :
  PairingService.success
    (fst (PairingService.pair "ABC" (blank_page 0 0 NetworkFailure))) = false.
Proof.
  rewrite (pair_refuses_bad_code (blank_page 0 0 NetworkFailure) "ABC").
  - reflexivity.
  - vm_compute. discriminate.
Defined.

(** X16.  For a six-character code, [pair] sends one request for the agent
    id that [getOrCreateAgentId] yields.  It succeeds exactly when the
    server answers with a 2xx status and a body that parses; then the
    result carries that agent id and, storage permitting, the id is stored,
    so the device is paired.  In every other case (network failure,
    unparseable body, error status) it reports failure and the stored
    entries are untouched. *)
Theorem pair_stores_id_iff_accepted (p : Page) (pairingCode : string) :
  String.length (clean_code p pairingCode) = 6%nat ->
  let agentId := fst (PairingService.getOrCreateAgentId p) in
  let url := pair_request_url p agentId in
  let body := pair_request_body (clean_code p pairingCode) in
  let result := fst (PairingService.pair pairingCode p) in
  let p' := snd (PairingService.pair pairingCode p) in
  Fetch url body ∈ page_log p'
  /\ (PairingService.success result = true
      <-> exists status data,
            server p url body = Response status (Some data)
            /\ response_ok status = true)
  /\ (PairingService.success result = true ->
      PairingService.result_agentId result = Some agentId
      /\ (storage_blocked p = false -> storage_full p = false ->
          fst (Config.getAgentId p') = Some agentId
          /\ fst (Config.isPaired p') = true))
  /\ (PairingService.success result = false -> storage p' = storage p).
Proof.
  intros Hlen. cbv zeta.
  unfold PairingService.pair. fold (clean_code p pairingCode).
  rewrite Hlen. cbn [Nat.eqb negb].
  pose proof (getOrCreateAgentId_same_site p) as Hsite.
  destruct (PairingService.getOrCreateAgentId p) as [agentId p1]. cbn [fst snd] in *.
  destruct Hsite as (Hst & Hbl & Hfu & Hsv & Hbu & _).
  unfold pair_request_url, pair_request_body. cbn [builtins record server].
  rewrite Hbu, Hsv.
  set (url := Config.PAIR_URL Config.BACKEND_URL +:+ "?agent_id="
              +:+ encodeURIComponent_ (builtins p) agentId).
  set (body := JSON_stringify [("pairing_code", Some (JStr (clean_code p pairingCode)))]).
  destruct (server p url body) as [|status [data|]] eqn:Hsrv.
  - cbn. split_all.
    + rewrite !elem_of_app. left. right. left.
    + split; [discriminate|]. intros (s & d & E & _). discriminate.
    + discriminate.
    + intros _. exact Hst.
  - destruct (response_ok status) eqn:Hok; cbn [negb].
    + cbn. unfold Config.isPaired, Config.setAgentId, Config.getAgentId, setItem, getItem.
      cbn. rewrite Hbl, Hfu. split_all.
      * destruct (storage_blocked p || storage_full p); cbn;
          rewrite !elem_of_app; do 2 left; right; left.
      * split; [intros _; exists status, data; split; [reflexivity | exact Hok]
               | intros _; destruct (storage_blocked p || storage_full p); reflexivity].
      * intros _. split; [destruct (storage_blocked p || storage_full p); reflexivity|].
        intros Hb Hf. rewrite Hb, Hf. cbn. rewrite Hbl, Hb. cbn.
        rewrite lookup_insert_eq. split; reflexivity.
      * destruct (storage_blocked p || storage_full p); discriminate.
    + destruct data; cbn; split_all;
        try (rewrite !elem_of_app; first [ left; left; right; left
                                         | left; right; left ]);
        try discriminate;
        try (intros _; exact Hst);
        try (split; [discriminate|]; intros (st' & d' & E & Hs');
             injection E as E1 E2; subst st'; congruence).
  - cbn. split_all.
    + rewrite !elem_of_app. left. right. left.
    + split; [discriminate|]. intros (s & d & E & _). discriminate.
    + discriminate.
    + intros _. exact Hst.
Qed.

Lemma pair_stores_id_iff_accepted_witness :
  Fetch (pair_request_url (blank_page 0 (1 # 2) (Response 200 (Some (JObj []))))
           (fst (PairingService.getOrCreateAgentId
                   (blank_page 0 (1 # 2) (Response 200 (Some (JObj [])))))))
        (pair_request_body
           (clean_code (blank_page 0 (1 # 2) (Response 200 (Some (JObj [])))) "ABC123"))
  ∈ page_log (snd (PairingService.pair "ABC123"
                     (blank_page 0 (1 # 2) (Response 200 (Some (JObj [])))))).
Proof.
  apply (pair_stores_id_iff_accepted
           (blank_page 0 (1 # 2) (Response 200 (Some (JObj [])))) "ABC123").
  reflexivity.
Defined.

(** A successful pairing on a blank page, in full: the generated id is
    stored and the device is paired. *)
Lemma pair_on_blank_page :
  let p := blank_page 0 (1 # 2) (Response 200 (Some (JObj []))) in
  PairingService.success (fst (PairingService.pair "ABC123" p)) = true
  /\ PairingService.result_agentId (fst (PairingService.pair "ABC123" p))
     = Some "pi-ssssssss"
  /\ fst (Config.getAgentId (snd (PairingService.pair "ABC123" p))) = Some "pi-ssssssss".
Proof. cbv zeta. split_all; vm_compute; reflexivity. Qed.

(** X17.  With a working [localStorage], [unpair] removes the agent id and
    the saved content and nothing else: afterwards the device is not
    paired, and [getOrCreateAgentId] generates a new id instead of
    returning the old one. *)
Theorem unpair_forgets_device (p : Page) :
  storage_blocked p = false ->
  storage (PairingService.unpair p)
  = delete Config.STORAGE_KEY (delete Config.STORAGE_KEY_AGENT_ID (storage p))
  /\ fst (PairingService.isPaired (PairingService.unpair p)) = false
  /\ storage (PairingService.unpair p) !! Config.STORAGE_KEY = None
  /\ (forall k, k <> Config.STORAGE_KEY_AGENT_ID -> k <> Config.STORAGE_KEY ->
      storage (PairingService.unpair p) !! k = storage p !! k)
  /\ fst (PairingService.getOrCreateAgentId (PairingService.unpair p))
     = fst (PairingService.generateAgentId (PairingService.unpair p)).
Proof.
  intros Hb.
  assert (Hs : storage (PairingService.unpair p)
               = delete Config.STORAGE_KEY
                   (delete Config.STORAGE_KEY_AGENT_ID (storage p))).
  { unfold PairingService.unpair, Helpers.clearStorage, Config.clearAgentId, removeItem.
    rewrite Hb. cbn. rewrite Hb. reflexivity. }
  assert (Hb' : storage_blocked (PairingService.unpair p) = false).
  { unfold PairingService.unpair, Helpers.clearStorage, Config.clearAgentId, removeItem.
    rewrite Hb. cbn. rewrite Hb. cbn. exact Hb. }
  assert (Hid : storage (PairingService.unpair p) !! Config.STORAGE_KEY_AGENT_ID = None).
  { rewrite Hs. rewrite lookup_delete_ne by discriminate. apply lookup_delete_eq. }
  split_all.
  - exact Hs.
  - unfold PairingService.isPaired, Config.isPaired, Config.getAgentId, getItem.
    rewrite Hb', Hid. reflexivity.
  - rewrite Hs. apply lookup_delete_eq.
  - intros k H1 H2. rewrite Hs. rewrite !lookup_delete_ne by congruence. reflexivity.
  - unfold PairingService.getOrCreateAgentId, Config.getAgentId, getItem.
    rewrite Hb', Hid.
    destruct (PairingService.generateAgentId (PairingService.unpair p)); reflexivity.
Qed.

Lemma unpair_forgets_device_witness :
  fst (PairingService.isPaired
         (PairingService.unpair
            (Config.setAgentId "pi-abc" (blank_page 0 0 NetworkFailure)))) = false.
Proof.
  apply (unpair_forgets_device
           (Config.setAgentId "pi-abc" (blank_page 0 0 NetworkFailure))).
  reflexivity.
Defined.

(** ** Saved content *)

Lemma too_old_iff (t1 t0 maxAge : Z) :
  negb (Qle_bool (inject_Z t1 - inject_Z t0) (inject_Z maxAge)) = true
  <-> (maxAge < t1 - t0)%Z.
Proof.
  rewrite negb_true_iff, <- not_true_iff_false, Qle_bool_iff.
  assert (E : (inject_Z t1 - inject_Z t0 == inject_Z (t1 - t0))%Q).
  { unfold Qminus. rewrite <- inject_Z_opp, <- inject_Z_plus. reflexivity. }
  rewrite E, <- Zle_Qle. lia.
Qed.

(** X18.  Saved content comes back until it expires.  With a working
    [localStorage] and a [JSON.parse] that inverts [JSON.stringify] on the
    saved wrapper, [loadFromStorage] returns the data that [saveToStorage]
    stored under the key as long as the clock has advanced by no more than
    [maxAge] milliseconds, and changes nothing; once the entry is older, it
    returns [null] and removes the entry. *)
Theorem saved_content_expires (p : Page) (key : string) (data : json) (t1 maxAge : Z) :
  storage_blocked p = false -> storage_full p = false ->
  JSON_parse_text (builtins p) (JSON_text (builtins p) (storage_wrapper data (now p)))
  = Some (storage_wrapper data (now p)) ->
  JSON_text (builtins p) (storage_wrapper data (now p)) <> "" ->
  let saved := set_now t1 (Helpers.saveToStorage key (Some data) p) in
  ((t1 - now p <= maxAge)%Z ->
   Helpers.loadFromStorage key maxAge saved = (Some data, saved))
  /\ ((maxAge < t1 - now p)%Z ->
      fst (Helpers.loadFromStorage key maxAge saved) = Some JNull
      /\ storage (snd (Helpers.loadFromStorage key maxAge saved)) !! key = None).
Proof.
  intros Hb Hf Hparse Hne. cbv zeta. unfold storage_wrapper in *.
  unfold Helpers.saveToStorage, setItem.
  rewrite Hb, Hf. cbn [orb].
  unfold Helpers.loadFromStorage, getItem, removeItem.
  cbn [storage_blocked set_now set_storage storage builtins now].
  rewrite Hb, lookup_insert_eq.
  apply String.eqb_neq in Hne.
  match goal with
  | |- context [String.eqb ?t ""] =>
      replace (String.eqb t "") with false by (symmetry; exact Hne)
  end.
  match goal with
  | |- context [JSON_parse_text ?b ?t] =>
      replace (JSON_parse_text b t)
        with (Some (JObj [("data", data); ("timestamp", JNum (inject_Z (now p)))]))
        by (symmetry; exact Hparse)
  end.
  cbn [JSON_stringify omap fst snd fmap option_fmap option_map].
  change (lookup_prop "data" [("data", data); ("timestamp", JNum (inject_Z (now p)))])
    with (Some data).
  change (lookup_prop "timestamp" [("data", data); ("timestamp", JNum (inject_Z (now p)))])
    with (Some (JNum (inject_Z (now p)))).
  cbn [Helpers.ToNumber].
  pose proof (too_old_iff t1 (now p) maxAge) as Hold.
  destruct (negb (Qle_bool (inject_Z t1 - inject_Z (now p)) (inject_Z maxAge))).
  - split.
    + intros Hle. exfalso. assert (maxAge < t1 - now p)%Z by (apply Hold; reflexivity). lia.
    + intros _. cbn. split; [reflexivity | apply lookup_delete_eq].
  - split.
    + intros _. reflexivity.
    + intros Hlt. apply Hold in Hlt. discriminate.
Qed.

Lemma saved_content_expires_witness :
  Helpers.loadFromStorage "xentauri_pi_screen" 3600000
    (set_now 5000
       (Helpers.saveToStorage "xentauri_pi_screen" (Some (JStr "scene"))
          (page_for (storage_wrapper (JStr "scene") 1000) 1000)))
  = (Some (JStr "scene"),
     set_now 5000
       (Helpers.saveToStorage "xentauri_pi_screen" (Some (JStr "scene"))
          (page_for (storage_wrapper (JStr "scene") 1000) 1000))).
Proof.
  apply (saved_content_expires (page_for (storage_wrapper (JStr "scene") 1000) 1000)
           "xentauri_pi_screen" (JStr "scene") 5000 3600000).
  - reflexivity.
  - reflexivity.
  - reflexivity.
  - discriminate.
  - simpl. lia.
Defined.

(** X19.  What [loadFromStorage] does when there is nothing to return.  If
    [localStorage] throws, or holds no entry or an empty one under the key,
    or the entry does not parse (or parses to [null]), the result is
    [null] and the stored entries are left as they were. *)
Theorem loadFromStorage_failures_give_null (p : Page) (key : string) (maxAge : Z) :
  storage_blocked p = true
  \/ storage p !! key = None
  \/ storage p !! key = Some ""
  \/ (exists item, storage p !! key = Some item
                   /\ (JSON_parse_text (builtins p) item = None
                       \/ JSON_parse_text (builtins p) item = Some JNull)) ->
  fst (Helpers.loadFromStorage key maxAge p) = Some JNull
  /\ storage (snd (Helpers.loadFromStorage key maxAge p)) = storage p.
Proof.
  unfold Helpers.loadFromStorage, getItem.
  intros [Hb | H]; [rewrite Hb; split; reflexivity|].
  destruct (storage_blocked p); [split; reflexivity|].
  destruct H as [H | [H | (item & H & Hp)]]; rewrite H.
  - split; reflexivity.
  - split; reflexivity.
  - destruct (String.eqb item ""); [split; reflexivity|].
    destruct Hp as [Hp | Hp]; rewrite Hp; split; reflexivity.
Qed.

Lemma loadFromStorage_failures_give_null_witness :
  fst (Helpers.loadFromStorage "xentauri_pi_screen" 3600000
         (blank_page 0 0 NetworkFailure)) = Some JNull
  /\ storage (snd (Helpers.loadFromStorage "xentauri_pi_screen" 3600000
                     (blank_page 0 0 NetworkFailure)))
     = storage (blank_page 0 0 NetworkFailure).
Proof.
  apply (loadFromStorage_failures_give_null (blank_page 0 0 NetworkFailure)
           "xentauri_pi_screen" 3600000).
  right. left. reflexivity.
Defined.

(** X20.  [loadFromStorage] touches no entry but its own: every other key
    keeps its value, and the entry under the key itself is either kept or,
    when the call returns [null], removed. *)
Theorem loadFromStorage_touches_only_its_key
    (p : Page) (key k : string) (maxAge : Z) :
  k <> key ->
  storage (snd (Helpers.loadFromStorage key maxAge p)) !! k = storage p !! k
  /\ (storage (snd (Helpers.loadFromStorage key maxAge p)) !! key = storage p !! key
      \/ (fst (Helpers.loadFromStorage key maxAge p) = Some JNull
          /\ storage (snd (Helpers.loadFromStorage key maxAge p)) !! key = None)).
Proof.
  intros Hk. unfold Helpers.loadFromStorage, getItem, removeItem.
  destruct (storage_blocked p) eqn:Hb; [split; [|left]; reflexivity|].
  assert (Hcase : forall (too_old : bool) (data : jsval),
            let r := if too_old
                     then (Some JNull, set_storage (delete key (storage p)) p)
                     else (data, p) in
            storage (snd r) !! k = storage p !! k
            /\ (storage (snd r) !! key = storage p !! key
                \/ (fst r = Some JNull /\ storage (snd r) !! key = None))).
  { intros [] data; cbn.
    - split; [apply lookup_delete_ne; congruence|].
      right. split; [reflexivity | apply lookup_delete_eq].
    - split; [reflexivity | left; reflexivity]. }
  destruct (storage p !! key) as [item|] eqn:Hi;
    [|split; [reflexivity | left; exact Hi]].
  destruct (String.eqb item ""); [split; [reflexivity | left; exact Hi]|].
  destruct (JSON_parse_text (builtins p) item) as [parsed|];
    [|split; [reflexivity | left; exact Hi]].
  destruct parsed;
    first [split; [reflexivity | left; exact Hi] | apply Hcase].
Qed.

Lemma loadFromStorage_touches_only_its_key_witness :
  storage (snd (Helpers.loadFromStorage "xentauri_pi_screen" 3600000
                  (Config.setAgentId "pi-abc" (blank_page 0 0 NetworkFailure))))
    !! "xentauri_agent_id"
  = storage (Config.setAgentId "pi-abc" (blank_page 0 0 NetworkFailure))
      !! "xentauri_agent_id".
Proof.
  apply (loadFromStorage_touches_only_its_key
           (Config.setAgentId "pi-abc" (blank_page 0 0 NetworkFailure))
           "xentauri_pi_screen" "xentauri_agent_id" 3600000).
  discriminate.
Defined.

(** ** Formatting helpers *)

Lemma padStart2_two_digits (n : Z) :
  (0 <= n < 100)%Z -> Helpers.padStart2 (pretty n) = two_digits n.
Proof.
  intros Hn. rewrite <- (Z2Nat.id n) by lia.
  assert (Hk : (Z.to_nat n < 100)%nat) by lia.
  generalize dependent (Z.to_nat n). clear n Hn. intros k Hk.
  do 100 (destruct k as [|k]; [vm_compute; reflexivity|]).
  lia.
Qed.

Lemma minutes_field (seconds : Z) :
  (0 <= seconds)%Z -> (Z.rem seconds 3600 / 60 = seconds / 60 mod 60)%Z.
Proof.
  intros H. rewrite Z.rem_mod_nonneg by lia.
  change 3600%Z with (60 * 60)%Z.
  rewrite Z.rem_mul_r by lia.
  rewrite (Z.mul_comm 60 (seconds / 60 mod 60)), Z.div_add by lia.
  rewrite Z.div_small by (apply Z.mod_pos_bound; lia). reflexivity.
Qed.

(** X21.  [formatDuration] writes HH:MM:SS.  For a whole number of seconds
    below 100 hours the result is exactly eight characters: the two decimal
    digits of the hours, of the minutes within the hour and of the seconds
    within the minute, separated by colons. *)
Theorem formatDuration_is_HH_MM_SS (seconds : Z) :
  (0 <= seconds < 360000)%Z ->
  Helpers.formatDuration seconds
  = two_digits (seconds / 3600) +:+ ":" +:+ two_digits (seconds / 60 mod 60)
    +:+ ":" +:+ two_digits (seconds mod 60)
  /\ String.length (Helpers.formatDuration seconds) = 8%nat.
Proof.
  intros Hs.
  assert (E : Helpers.formatDuration seconds
              = two_digits (seconds / 3600) +:+ ":"
                +:+ two_digits (seconds / 60 mod 60)
                +:+ ":" +:+ two_digits (seconds mod 60)).
  { unfold Helpers.formatDuration. cbv zeta.
    rewrite minutes_field by lia.
    rewrite (Z.rem_mod_nonneg seconds 60) by lia.
    rewrite !padStart2_two_digits; [reflexivity | | |];
      Z.div_mod_to_equations; lia. }
  split; [exact E|]. rewrite E. reflexivity.
Qed.

Lemma formatDuration_is_HH_MM_SS_witness :
  Helpers.formatDuration 5445 = "01:30:45"
  /\ String.length (Helpers.formatDuration 5445) = 8%nat.
Proof. apply (formatDuration_is_HH_MM_SS 5445). lia. Defined.

Lemma string_take_length (n : nat) (s : string) :
  String.length (Helpers.string_take n s) = Nat.min n (String.length s).
Proof.
  revert s. induction n as [|n IH]; intros [|c s]; cbn; try reflexivity.
  rewrite IH. reflexivity.
Qed.

Lemma string_take_prefix (n : nat) (s : string) :
  String.prefix (Helpers.string_take n s) s = true.
Proof.
  revert s. induction n as [|n IH]; intros [|c s]; cbn; try reflexivity.
  destruct (Ascii.ascii_dec c c); [apply IH | congruence].
Qed.

(** X22.  [truncate] returns an empty string, and one that fits, as it is;
    a longer one is cut to a prefix followed by three dots, and the result
    is then [maxLength] characters long when [maxLength] is at least 3,
    and the three dots alone (which is longer than [maxLength]) when it is
    less. *)
Theorem truncate_cuts_to_maxLength (s : string) (maxLength : Z) :
  (s = "" \/ (Z.of_nat (String.length s) <= maxLength)%Z ->
   Helpers.truncate (Some s) maxLength = s)
  /\ (s <> "" -> (maxLength < Z.of_nat (String.length s))%Z ->
      (exists head, Helpers.truncate (Some s) maxLength = head +:+ "..."
                    /\ String.prefix head s = true)
      /\ Z.of_nat (String.length (Helpers.truncate (Some s) maxLength))
         = Z.max maxLength 3
      /\ ((maxLength < 3)%Z -> Helpers.truncate (Some s) maxLength = "...")).
Proof.
  unfold Helpers.truncate, Helpers.substring_from_0. split.
  - intros [-> | H]; [reflexivity|].
    apply Z.leb_le in H. rewrite H, orb_true_r. reflexivity.
  - intros Hne H.
    assert (Hl : (Z.of_nat (String.length s) <=? maxLength)%Z = false)
      by (apply Z.leb_gt; exact H).
    apply String.eqb_neq in Hne. rewrite Hne, Hl. cbn [orb]. split_all.
    + eexists. split; [reflexivity | apply string_take_prefix].
    + rewrite string_length_app, string_take_length. cbn [String.length]. lia.
    + intros H3. replace (Z.to_nat (maxLength - 3)) with 0%nat by lia.
      reflexivity.
Qed.

Lemma truncate_cuts_to_maxLength_witness :
  Helpers.truncate (Some "Raspberry Pi Screen") 40 = "Raspberry Pi Screen".
Proof.
  apply (truncate_cuts_to_maxLength "Raspberry Pi Screen" 40). right. simpl. lia.
Defined.
